(** * Churn-constrained training notebook: a shallow embedding

    The notebook [examples/jupyter/Churn.ipynb] is a linear script over
    pandas, numpy and TensorFlow.  This development embeds the functions of
    the notebook that carry logic of their own:

    - [error_rate] and [_get_error_rate_and_constraints]   (cell 5),
    - [fix_columns] and [binarize_categorical_columns]    (cell 2),
    - [_construct_model] and [Model.build_train_op]        (cell 3),
    - [training_generator] and [training_helper]          (cells 4 and 5).

    Calls into the external frameworks (the TensorFlow session, the
    pandas one-hot encoder, the random shuffle, the constrained-optimization
    library) are either symbolic constructors or variables of a section.

    Numbers.  Cells of a dataframe and prediction scores are finite numbers,
    modelled as rationals [Q]; NaN and infinities are outside the model.
    The only arithmetic the notebook performs on scores is a multiplication
    by [+1] or [-1] and a comparison with [0], both exact on floats.  The
    final quotient and difference are kept as exact rationals: Python rounds
    them to the nearest double. *)

From Stdlib Require Import ZArith QArith Lia.
From stdpp Require Import base option list strings gmap.

Open Scope Z_scope.

(** ** Python exceptions and results *)

Inductive Exn : Type :=
  | KeyError (key : string)
  | ValueError
  | IndexError
  | ZeroDivisionError
  | UnboundLocalError (name : string)
  | AttributeError (name : string)
  | FrameworkError.

(** A computation either returns, raises, or is cut off by the bound put on
    the number of iterations of a [while] loop. *)
Inductive Result (A : Type) : Type :=
  | Ok (a : A)
  | Raise (e : Exn)
  | OutOfFuel.
Arguments Ok {A} a.
Arguments Raise {A} e.
Arguments OutOfFuel {A}.

#[global] Instance result_bind : MBind Result := fun A B k m =>
  match m with
  | Ok a => k a
  | Raise e => Raise e
  | OutOfFuel => OutOfFuel
  end.
#[global] Instance result_ret : MRet Result := fun A a => Ok a.

(** [rmapM f l]: a list comprehension whose element expression may raise. *)
Fixpoint rmapM {A B} (f : A -> Result B) (l : list A) : Result (list B) :=
  match l with
  | [] => Ok []
  | x :: l' => y ← f x; ys ← rmapM f l'; Ok (y :: ys)
  end.

(** ** Rationals with boolean comparisons *)

Definition Qltb (x y : Q) : bool := (Qnum x * QDen y <? Qnum y * QDen x)%Z.
Definition Qleb (x y : Q) : bool := Qle_bool x y.

(** [b.astype(np.float32)] on a boolean. *)
Definition astype_float (b : bool) : Q := if b then 1%Q else 0%Q.

(** ** Dataframes (the part of pandas the notebook relies on) *)

Module Frame.

(** A column of numbers: a numpy array of shape [(n,)] or [(n, 1)], or a
    one-column dataframe such as [df[['predictions']]]. *)
Definition Column := list Q.

(** A dataframe: its number of rows ([df.shape[0]]) and its columns in
    order.  The frames of the notebook carry the default positional index and
    no repeated column label; a label is looked up at its first occurrence. *)
Record DataFrame : Type := mkDataFrame {
  nrows : nat;
  columns : list (string * Column)
}.

(** [df.columns] *)
Definition column_names (df : DataFrame) : list string := (columns df).*1.

Fixpoint assoc_get (c : string) (cols : list (string * Column)) : option Column :=
  match cols with
  | [] => None
  | (c', v) :: rest => if String.eqb c c' then Some v else assoc_get c rest
  end.

(** Assignment to a label: in place when the label exists, appended as the
    last column otherwise. *)
Fixpoint assoc_set (c : string) (v : Column) (cols : list (string * Column))
  : list (string * Column) :=
  match cols with
  | [] => [(c, v)]
  | (c', v') :: rest =>
      if String.eqb c c' then (c, v) :: rest else (c', v') :: assoc_set c v rest
  end.

(** [df[[c]]], read as a column; [KeyError] when the label is absent. *)
Definition getitem_col (df : DataFrame) (c : string) : Result Column :=
  match assoc_get c (columns df) with
  | Some v => Ok v
  | None => Raise (KeyError c)
  end.

(** [df[names]] for a list of labels. *)
Definition getitem_list (df : DataFrame) (names : list string) : Result DataFrame :=
  cols ← rmapM (fun c => v ← getitem_col df c; Ok (c, v)) names;
  Ok (mkDataFrame (nrows df) cols).

(** [df[c] = values] for an array: the length has to match the index. *)
Definition setitem (df : DataFrame) (c : string) (values : Column) : Result DataFrame :=
  if Nat.eqb (length values) (nrows df)
  then Ok (mkDataFrame (nrows df) (assoc_set c values (columns df)))
  else Raise ValueError.

(** [df[c] = x] for a scalar. *)
Definition setitem_scalar (df : DataFrame) (c : string) (x : Q) : DataFrame :=
  mkDataFrame (nrows df) (assoc_set c (replicate (nrows df) x) (columns df)).

(** [l[i]] for a Python list or a positional indexer: negative positions
    count from the end. *)
Definition py_index {A} (l : list A) (i : Z) : Result A :=
  let n := Z.of_nat (length l) in
  let j := if i <? 0 then i + n else i in
  if (0 <=? j) && (j <? n)
  then match l !! Z.to_nat j with Some x => Ok x | None => Raise IndexError end
  else Raise IndexError.

Definition valid_position (n : nat) (i : Z) : bool :=
  (- Z.of_nat n <=? i) && (i <? Z.of_nat n).

(** [df.iloc[rows]] for a list of positions. *)
Definition iloc (df : DataFrame) (rows : list Z) : Result DataFrame :=
  if forallb (valid_position (nrows df)) rows
  then cols ← rmapM (fun '(c, v) => v' ← rmapM (py_index v) rows; Ok (c, v'))
                    (columns df);
       Ok (mkDataFrame (length rows) cols)
  else Raise IndexError.

End Frame.

(** ** Metrics (cell 5) *)

Module Metrics.

Import Frame.

Definition LABEL_COLUMN : string := "label".
Definition CHURN_COLUMN : string := "churn_label".

(** [(labels > 0).astype(np.float32) - (labels <= 0).astype(np.float32)] *)
Definition signed_label (l : Q) : Q :=
  (astype_float (Qltb 0 l) - astype_float (Qleb l 0))%Q.

Definition zip_mul (xs ys : Column) : Column :=
  zip_with Qmult xs ys.

(** [np.multiply] on two columns, with numpy's broadcasting of an operand
    that has a single row; other shape mismatches raise [ValueError]. *)
Definition np_multiply (xs ys : Column) : Result Column :=
  if Nat.eqb (length xs) (length ys) then Ok (zip_mul xs ys)
  else match xs, ys with
       | [x], _ => Ok (map (fun y => x * y)%Q ys)
       | _, [y] => Ok (map (fun x => x * y)%Q xs)
       | _, _ => Raise ValueError
       end.

(** [(a <= 0).sum()] *)
Definition count_nonpositive (a : Column) : Z :=
  fold_right (fun x acc => (if Qleb x 0 then 1 else 0) + acc) 0 a.

(** [float(numerator) / float(denominator)]: Python raises on a zero
    denominator. *)
Definition float_div (numerator denominator : Z) : Result Q :=
  if denominator =? 0 then Raise ZeroDivisionError
  else Ok (inject_Z numerator / inject_Z denominator)%Q.

(** The pandas the notebook ran on (Python 3.5) applies a numpy ufunc to the
    underlying arrays of two one-column dataframes, without aligning their
    column labels, so [error_rate] is the same computation on frames and on
    arrays. *)
Definition error_rate (predictions labels : Column) : Result Q :=
  let signed_labels := map signed_label labels in
  product ← np_multiply signed_labels predictions;
  let numerator := count_nonpositive product in
  let denominator := Z.of_nat (length predictions) in
  float_div numerator denominator.

(** Computes the error and constraint violations. *)
Definition _get_error_rate_and_constraints (df : DataFrame) (max_churn_rate : Q)
  : Result (Q * Q) :=
  predictions ← getitem_col df "predictions";
  labels ← getitem_col df LABEL_COLUMN;
  error_rate_local ← error_rate predictions labels;
  predictions ← getitem_col df "predictions";
  churn_labels ← getitem_col df CHURN_COLUMN;
  error_rate_churn ← error_rate predictions churn_labels;
  Ok (error_rate_local, (error_rate_churn - max_churn_rate)%Q).

End Metrics.

(** ** Preprocessing (cell 2) *)

Module Preprocess.
Import Frame.

(** The one-hot encoder of pandas is external; a raw frame still holds the
    categorical (string) cells. *)
Class Pandas : Type := {
  RawFrame : Type;
  get_dummies : RawFrame -> list string -> Result DataFrame
}.

(** [set(a) - set(b)].  A Python set is iterated in an unspecified order; the
    elements are taken here in the order of their first occurrence in [a]. *)
Definition set_difference (a b : list string) : list string :=
  remove_dups (list_difference a b).

(** First loop of [fix_columns].  The assignment to [train_df_missing_cols]
    sits inside the loop body: the local stays unbound ([None]) when the
    loop has nothing to iterate over. *)
Fixpoint fix_test_loop (cs : list string) (input_train_df input_test_df : DataFrame)
    (train_df_missing_cols : option (list string))
  : DataFrame * option (list string) :=
  match cs with
  | [] => (input_test_df, train_df_missing_cols)
  | c :: cs' =>
      let input_test_df := setitem_scalar input_test_df c 0 in
      let train_df_missing_cols :=
        Some (set_difference (column_names input_test_df)
                             (column_names input_train_df)) in
      fix_test_loop cs' input_train_df input_test_df train_df_missing_cols
  end.

(** Second loop: the re-indexing of the train frame by the test columns is
    inside the loop body as well. *)
Fixpoint fix_train_loop (cs : list string) (input_train_df input_test_df : DataFrame)
  : Result DataFrame :=
  match cs with
  | [] => Ok input_train_df
  | c :: cs' =>
      let input_train_df := setitem_scalar input_train_df c 0 in
      input_train_df ← getitem_list input_train_df (column_names input_test_df);
      fix_train_loop cs' input_train_df input_test_df
  end.

Definition fix_columns (input_train_df input_test_df : DataFrame)
  : Result (DataFrame * DataFrame) :=
  let test_df_missing_cols :=
    set_difference (column_names input_train_df) (column_names input_test_df) in
  let '(input_test_df, train_df_missing_cols) :=
    fix_test_loop test_df_missing_cols input_train_df input_test_df None in
  match train_df_missing_cols with
  | None => Raise (UnboundLocalError "train_df_missing_cols")
  | Some train_df_missing_cols =>
      input_train_df ← fix_train_loop train_df_missing_cols input_train_df input_test_df;
      Ok (input_train_df, input_test_df)
  end.

Definition binarize_categorical_columns `{Pandas}
    (input_train_df input_test_df : RawFrame) (categorical_columns : list string)
  : Result (DataFrame * DataFrame) :=
  (* Binarize categorical columns. *)
  binarized_train_df ← get_dummies input_train_df categorical_columns;
  binarized_test_df ← get_dummies input_test_df categorical_columns;
  (* Make sure the train and test dataframes have the same binarized columns. *)
  '(fixed_train_df, fixed_test_df) ← fix_columns binarized_train_df binarized_test_df;
  Ok (fixed_train_df, fixed_test_df).

(** The encoder on frames that are numeric already, called with no column to
    encode (the default [categorical_columns=[]]): pandas returns such a
    frame as it is.  Any other call is outside this stand-in. *)
Definition nothing_to_encode : Pandas := {|
  RawFrame := DataFrame;
  get_dummies := fun df categorical_columns =>
    match categorical_columns with
    | [] => Ok df
    | c :: _ => Raise FrameworkError
    end
|}.

End Preprocess.

(** ** Model and constrained problem (cell 3) *)

(** The graph of TensorFlow and the rate expressions of the
    constrained-optimization library are symbolic: each call of the external
    API is a constructor that records its arguments. *)
Module Graph.

Inductive Activation : Type := relu.

Inductive Tensor : Type :=
  | placeholder (shape : list (option Z)) (name : string)
  | dense (inputs : Tensor) (units : Z) (activation : option Activation).

Record RateContext : Type := rate_context {
  context_predictions : Tensor;
  context_labels : Tensor
}.

Inductive RateExpr : Type :=
  | error_rate (ctx : RateContext).

Inductive RateConstraint : Type :=
  | rate_le (e : RateExpr) (bound : Q).

Record RateMinimizationProblem : Type := mkProblem {
  objective : RateExpr;
  constraints : list RateConstraint
}.

Inductive Optimizer : Type :=
  | AdamOptimizer (learning_rate : Q).

Inductive ConstrainedOptimizer : Type :=
  | LagrangianOptimizerV1 (optimizer : Optimizer).

Record TrainOp : Type := minimize {
  train_optimizer : ConstrainedOptimizer;
  train_problem : RateMinimizationProblem
}.

(** Python truth value of the [hidden_units] argument: [None] and [0] are
    false, any other integer is true. *)
Definition truthy (hidden_units : option Z) : bool :=
  match hidden_units with
  | Some u => negb (u =? 0)
  | None => false
  end.

Definition _construct_model (input_tensor : Tensor) (hidden_units : option Z) : Tensor :=
  let hidden := input_tensor in
  let hidden :=
    match hidden_units with
    | Some units =>
        if truthy hidden_units then dense input_tensor units (Some relu) else hidden
    | None => hidden
    end in
  let output := dense hidden 1 None in
  output.

Record Model : Type := mkModel {
  max_churn_rate : Q;
  features_placeholder : Tensor;
  labels_placeholder : Tensor;
  churn_placeholder : Tensor;
  predictions_tensor : Tensor;
  train_op : option TrainOp      (* unset until [build_train_op] runs *)
}.

Definition Model_init (FEATURE_NAMES : list string)
    (hidden_units : option Z) (max_churn_rate : Q) : Model :=
  let num_features := Z.of_nat (length FEATURE_NAMES) in
  let features_placeholder :=
    placeholder [None; Some num_features] "features_placeholder" in
  {| max_churn_rate := max_churn_rate;
     features_placeholder := features_placeholder;
     labels_placeholder := placeholder [None; Some 1] "labels_placeholder";
     churn_placeholder := placeholder [None; Some 1] "churn_placeholder";
     predictions_tensor := _construct_model features_placeholder hidden_units;
     train_op := None |}.

(** Returns the updated object ([self.train_op] is assigned) and the
    operation. *)
Definition build_train_op (self : Model) (learning_rate : Q) (train_with_churn : bool)
  : Model * TrainOp :=
  let ctx := rate_context (predictions_tensor self) (labels_placeholder self) in
  let ctx_churn := rate_context (predictions_tensor self) (churn_placeholder self) in
  let constraints :=
    if train_with_churn
    then [rate_le (error_rate ctx_churn) (max_churn_rate self)]
    else [] in
  let mp := mkProblem (error_rate ctx) constraints in
  let opt := LagrangianOptimizerV1 (AdamOptimizer learning_rate) in
  let op := minimize opt mp in
  ({| max_churn_rate := max_churn_rate self;
      features_placeholder := features_placeholder self;
      labels_placeholder := labels_placeholder self;
      churn_placeholder := churn_placeholder self;
      predictions_tensor := predictions_tensor self;
      train_op := Some op |}, op).

End Graph.

(** ** Training loop (cells 4 and 5) *)

Module Training.
Import Frame Graph.

(** The keys of a feed dictionary are the three placeholders of the model. *)
Record FeedDict : Type := mkFeed {
  feed_features : DataFrame;
  feed_labels : Column;
  feed_churn : Column
}.

(** What the notebook uses of TensorFlow and of the [random] module.
    [new_session] is the session after both initializers ran; a run may
    raise whatever the framework raises. *)
Class Framework : Type := {
  Session : Type;
  new_session : Session;
  run_train_op : Session -> TrainOp -> FeedDict -> Result Session;
  run_tensor : Session -> Tensor -> FeedDict -> Result Column;
  shuffle : list Z -> list Z      (* [random.seed(31337); random.shuffle] *)
}.

(** [Model.feed_dict_helper]; [FEATURE_NAMES] is a global of the notebook. *)
Definition feed_dict_helper (FEATURE_NAMES : list string) (dataframe : DataFrame)
  : Result FeedDict :=
  features ← getitem_list dataframe FEATURE_NAMES;
  labels ← getitem_col dataframe Metrics.LABEL_COLUMN;
  churn ← getitem_col dataframe Metrics.CHURN_COLUMN;
  Ok (mkFeed features labels churn).

(** [range(a, b)] *)
Definition range (a b : Z) : list Z := seqZ a (b - a).

(** *** The minibatch sampler

    State of the inner [while] loop: [minibatch_indices] and
    [minibatch_start_index]. *)
Definition LoopState : Type := list Z * Z.

Definition while_cond (minibatch_size : Z) (st : LoopState) : bool :=
  Z.of_nat (length st.1) <? minibatch_size.

Definition while_body (num_rows minibatch_size : Z) (st : LoopState) : LoopState :=
  let '(minibatch_indices, minibatch_start_index) := st in
  let minibatch_end_index :=
    minibatch_start_index + minibatch_size - Z.of_nat (length minibatch_indices) in
  if num_rows <=? minibatch_end_index
  then (minibatch_indices ++ range minibatch_start_index num_rows, 0)
  else (minibatch_indices ++ range minibatch_start_index minibatch_end_index,
        minibatch_end_index).

(** The [while] loop, cut off after [fuel] iterations. *)
Fixpoint while_loop (fuel : nat) (num_rows minibatch_size : Z) (st : LoopState)
  : Result LoopState :=
  if while_cond minibatch_size st
  then match fuel with
       | O => OutOfFuel
       | S fuel' =>
           while_loop fuel' num_rows minibatch_size (while_body num_rows minibatch_size st)
       end
  else Ok st.

(** One training iteration gathers its indices from an empty list. *)
Definition next_minibatch (fuel : nat) (num_rows minibatch_size : Z)
    (minibatch_start_index : Z) : Result LoopState :=
  while_loop fuel num_rows minibatch_size ([], minibatch_start_index).

(** State of the sampler after [k] training iterations: the indices gathered
    by the last one and the start index it leaves ([minibatch_start_index]
    is initialised once, before both [for] loops). *)
Fixpoint minibatch_after (fuel : nat) (num_rows minibatch_size : Z) (k : nat)
  : Result LoopState :=
  match k with
  | O => Ok ([], 0)
  | S k' =>
      '(_, minibatch_start_index) ← minibatch_after fuel num_rows minibatch_size k';
      next_minibatch fuel num_rows minibatch_size minibatch_start_index
  end.

(** *** Shared dataframes

    [train_df] and [test_df] are objects shared between the caller, the
    generator and [training_helper]; a store maps object identities to
    their current value.  A raised exception keeps the writes made so far. *)
Definition Ref : Type := nat.
Definition Store : Type := Ref -> DataFrame.
Definition Prog (A : Type) : Type := Store -> Store * Result A.

#[global] Instance prog_bind : MBind Prog := fun A B k m σ =>
  match m σ with
  | (σ', Ok a) => k a σ'
  | (σ', Raise e) => (σ', Raise e)
  | (σ', OutOfFuel) => (σ', OutOfFuel)
  end.

Definition ret {A} (a : A) : Prog A := fun σ => (σ, Ok a).
Definition lift {A} (r : Result A) : Prog A := fun σ => (σ, r).
Definition read (r : Ref) : Prog DataFrame := fun σ => (σ, Ok (σ r)).
Definition update (σ : Store) (r : Ref) (df : DataFrame) : Store :=
  fun r' => if Nat.eqb r' r then df else σ r'.
Definition write (r : Ref) (df : DataFrame) : Prog unit :=
  fun σ => (update σ r df, Ok tt).

Fixpoint iterate {S} (n : nat) (f : S -> Prog S) (s : S) : Prog S :=
  match n with
  | O => ret s
  | S n' => s' ← f s; iterate n' f s'
  end.

Section Notebook.
Context `{Framework}.
Variable FEATURE_NAMES : list string.
Variable fuel : nat.

(** *** [training_generator] *)

(** Locals of the generator that live across its yields. *)
Record Generator : Type := mkGenerator {
  gen_num_rows : Z;
  gen_minibatch_size : Z;
  gen_permutation : list Z;
  gen_session : Session;
  gen_minibatch_start_index : Z;
  gen_loops_left : nat
}.

(** The code before the outer [for] loop. *)
Definition training_generator (train_df : Ref) (minibatch_size num_loops : Z)
  : Prog Generator :=
  df ← read train_df;
  let num_rows := Z.of_nat (nrows df) in
  let minibatch_size := Z.min minibatch_size num_rows in
  let permutation := shuffle (range 0 num_rows) in
  let session := new_session in
  let minibatch_start_index := 0 in
  ret (mkGenerator num_rows minibatch_size permutation session
         minibatch_start_index (Z.to_nat num_loops)).

(** One pass of the inner [for] loop: gather a minibatch, feed it. *)
Definition training_iteration (model : Model) (train_df : Ref) (g : Generator)
  : Prog Generator :=
  '(minibatch_indices, minibatch_start_index) ←
    lift (next_minibatch fuel (gen_num_rows g) (gen_minibatch_size g)
            (gen_minibatch_start_index g));
  op ← lift (match train_op model with
             | Some op => Ok op
             | None => Raise (AttributeError "train_op")
             end);
  rows ← lift (rmapM (py_index (gen_permutation g)) minibatch_indices);
  df ← read train_df;
  batch ← lift (iloc df rows);
  feed ← lift (feed_dict_helper FEATURE_NAMES batch);
  session ← lift (run_train_op (gen_session g) op feed);
  ret (mkGenerator (gen_num_rows g) (gen_minibatch_size g) (gen_permutation g)
         session minibatch_start_index (gen_loops_left g)).

(** Resuming the generator: [None] is [StopIteration], otherwise one epoch
    runs and the pair of prediction columns is yielded.  The frames are read
    from the store at the time of the run. *)
Definition generator_next (model : Model) (train_df test_df : Ref)
    (num_iterations_per_loop : Z) (g : Generator)
  : Prog (option (Column * Column) * Generator) :=
  match gen_loops_left g with
  | O => ret (None, g)
  | S loops_left =>
      g ← iterate (Z.to_nat num_iterations_per_loop)
            (training_iteration model train_df) g;
      df ← read train_df;
      feed ← lift (feed_dict_helper FEATURE_NAMES df);
      train_predictions ← lift (run_tensor (gen_session g) (predictions_tensor model) feed);
      df ← read test_df;
      feed ← lift (feed_dict_helper FEATURE_NAMES df);
      test_predictions ← lift (run_tensor (gen_session g) (predictions_tensor model) feed);
      ret (Some (train_predictions, test_predictions),
           mkGenerator (gen_num_rows g) (gen_minibatch_size g) (gen_permutation g)
             (gen_session g) (gen_minibatch_start_index g) loops_left)
  end.

(** *** [training_helper] *)

Record Vectors : Type := mkVectors {
  train_error_rate_vector : list Q;
  train_constraints_matrix : list Q;
  test_error_rate_vector : list Q;
  test_constraints_matrix : list Q
}.

(** [df['predictions'] = values] on a shared frame. *)
Definition assign_predictions (r : Ref) (values : Column) : Prog unit :=
  df ← read r;
  df ← lift (setitem df "predictions" values);
  write r df.

(** Body of the [for] loop of [training_helper]. *)
Definition helper_body (model : Model) (train_df test_df : Ref)
    (train test : Column) (acc : Vectors) : Prog Vectors :=
  _ ← assign_predictions train_df train;
  _ ← assign_predictions test_df test;
  df ← read train_df;
  '(train_error_rate, train_constraints) ←
    lift (Metrics._get_error_rate_and_constraints df (max_churn_rate model));
  df ← read test_df;
  '(test_error_rate, test_constraints) ←
    lift (Metrics._get_error_rate_and_constraints df (max_churn_rate model));
  ret (mkVectors
         (train_error_rate_vector acc ++ [train_error_rate])
         (train_constraints_matrix acc ++ [train_constraints])
         (test_error_rate_vector acc ++ [test_error_rate])
         (test_constraints_matrix acc ++ [test_constraints])).

(** The [for] loop over the generator; [n] bounds the number of resumptions
    and is [num_loops + 1] in [training_helper]. *)
Fixpoint helper_loop (n : nat) (model : Model) (train_df test_df : Ref)
    (num_iterations_per_loop : Z) (g : Generator) (acc : Vectors) : Prog Vectors :=
  match n with
  | O => ret acc
  | S n' =>
      '(yielded, g) ← generator_next model train_df test_df num_iterations_per_loop g;
      match yielded with
      | None => ret acc
      | Some (train, test) =>
          acc ← helper_body model train_df test_df train test acc;
          helper_loop n' model train_df test_df num_iterations_per_loop g acc
      end
  end.

Definition training_helper (model : Model) (train_df test_df : Ref)
    (minibatch_size num_iterations_per_loop num_loops : Z) : Prog Vectors :=
  g ← training_generator train_df minibatch_size num_loops;
  helper_loop (S (gen_loops_left g)) model train_df test_df
    num_iterations_per_loop g (mkVectors [] [] [] []).

End Notebook.

(** *** Sample run *)

Definition sample_train : DataFrame :=
  mkDataFrame 3 [("age_0", [1%Q; 0%Q; 1%Q]); ("label", [1%Q; 0%Q; 1%Q]);
                 ("churn_label", [1%Q; (-2)%Q; (-1)%Q])].

Definition sample_test : DataFrame :=
  mkDataFrame 2 [("age_0", [0%Q; 1%Q]); ("label", [0%Q; 1%Q]);
                 ("churn_label", [(-1)%Q; 3%Q])].

(** Object 0 is the train frame, every other object the test frame. *)
Definition sample_store : Store :=
  fun r => match r with O => sample_train | _ => sample_test end.

Definition sample_model : Model :=
  (build_train_op (Model_init ["age_0"] None (1#40)) (1#100) true).1.

(** A stand-in for the framework, to run the loop on examples: training
    leaves the session as it is, the model scores every row [1], and the
    shuffle reverses the positions. *)
Definition constant_scores : Framework := {|
  Session := unit;
  new_session := tt;
  run_train_op := fun session _ _ => Ok session;
  run_tensor := fun _ _ feed => Ok (map (fun _ => 1%Q) (feed_labels feed));
  shuffle := @rev Z
|}.

(** A second stand-in, to see what the training steps are fed: the session
    is the list of the feeds of the training steps run so far. *)
Definition logged_feeds : Framework := {|
  Session := list FeedDict;
  new_session := [];
  run_train_op := fun session _ feed => Ok (session ++ [feed]);
  run_tensor := fun _ _ feed => Ok (map (fun _ => 1%Q) (feed_labels feed));
  shuffle := @rev Z
|}.

End Training.

(** ** Reference notions the properties are stated against *)

Module Spec.
Import Frame.

(** The reference sign of a label: [+1] above zero, [-1] otherwise. *)
Definition reference_sign (l : Q) : Q := if Qltb 0 l then 1%Q else (-1)%Q.

(** A row is misclassified when the signed label times the prediction is not
    positive. *)
Definition misclassified (p l : Q) : bool := Qleb (reference_sign l * p) 0.

Definition count_rows (f : Q -> Q -> bool) (xs ys : Column) : nat :=
  length (List.filter (fun r => f r.1 r.2) (zip xs ys)).

Definition fraction (count n : nat) : Q :=
  (inject_Z (Z.of_nat count) / inject_Z (Z.of_nat n))%Q.

(** The label a model predicts: positive exactly for a score above zero. *)
Definition predicted_positive (score : Q) : bool := Qltb 0 score.

(** The predicted label differs between the new and the old model. *)
Definition flips (new old : Q) : bool :=
  negb (Bool.eqb (predicted_positive new) (predicted_positive old)).

(** A flip, or a new score of exactly zero. *)
Definition flips_or_zero (new old : Q) : bool :=
  flips new old || Qeq_bool new 0.

(** [len] consecutive positions from [start] among [num_rows] positions,
    going back to position 0 after the last one. *)
Definition cyclic (num_rows start : Z) (len : nat) : list Z :=
  map (fun j : nat => (start + Z.of_nat j) mod num_rows) (seq 0 len).

(** The states the inner [while] loop of [training_generator] can be in
    when its condition is evaluated. *)
Inductive reachable (num_rows minibatch_size : Z) : Training.LoopState -> Prop :=
  | reach_first :
      (* first training iteration: empty list, start index 0 *)
      reachable num_rows minibatch_size ([], 0)
  | reach_body st :
      (* one more pass through the loop body *)
      reachable num_rows minibatch_size st ->
      Training.while_cond minibatch_size st = true ->
      reachable num_rows minibatch_size (Training.while_body num_rows minibatch_size st)
  | reach_next st :
      (* the loop was left: the next training iteration empties the list *)
      reachable num_rows minibatch_size st ->
      Training.while_cond minibatch_size st = false ->
      reachable num_rows minibatch_size ([], st.2).

(** The columns of a frame other than ['predictions'], in order. *)
Definition other_columns (df : DataFrame) : list (string * Column) :=
  List.filter (fun cv => negb (String.eqb cv.1 "predictions")) (columns df).

(** [df'] is [df] up to its ['predictions'] column. *)
Definition same_but_predictions (df df' : DataFrame) : Prop :=
  nrows df' = nrows df /\ other_columns df' = other_columns df.

(** [σ'] differs from [σ] at most in the ['predictions'] column of the two
    frames [train_df] and [test_df]. *)
Definition framed (train_df test_df : Training.Ref) (σ σ' : Training.Store) : Prop :=
  (forall r, same_but_predictions (σ r) (σ' r)) /\
  (forall r, r <> train_df -> r <> test_df -> σ' r = σ r).

Definition preserves {A} (train_df test_df : Training.Ref) (m : Training.Prog A) : Prop :=
  forall σ, framed train_df test_df σ (m σ).1.

(** A program that leaves the store as it is. *)
Definition read_only {A} (m : Training.Prog A) : Prop := forall σ, (m σ).1 = σ.


End Spec.

(** ** Further pieces of the notebook *)

Module Cells.
Import Frame.

(** [l.remove(x)] on a Python list: the first occurrence goes, and
    [ValueError] is raised when there is none. *)
Fixpoint list_remove (x : string) (l : list string) : Result (list string) :=
  match l with
  | [] => Raise ValueError
  | y :: l' =>
      if String.eqb y x then Ok l'
      else l'' ← list_remove x l'; Ok (y :: l'')
  end.

(** The end of [get_data] (cell 2):
    [feature_names = list(train_df.keys()); feature_names.remove(LABEL_COLUMN)]. *)
Definition feature_names (train_df : DataFrame) : Result (list string) :=
  list_remove Metrics.LABEL_COLUMN (column_names train_df).

(** [df[dst] = df[src]] (cells 6 and 8). *)
Definition copy_column (df : DataFrame) (dst src : string) : Result DataFrame :=
  values ← getitem_col df src;
  setitem df dst values.

(** A prediction score of exactly zero. *)
Definition zero_score (p l : Q) : bool := Qeq_bool p 0.

End Cells.

(** ** Reference runs

    What the training loop is said to do, written without the loops of the
    notebook: the properties compare the embedded functions with these. *)

Module Reference.
Import Frame Graph Training Spec.

Section Reference.
Context `{Framework}.
Variable FEATURE_NAMES : list string.
Variable fuel : nat.
Variables train_df test_df : Ref.

(** One training step on the rows the permutation holds at the given
    positions:
    [session.run(model.train_op, feed_dict=model.feed_dict_helper(
       train_df.iloc[[permutation[ii] for ii in positions]]))]. *)
Definition feed_positions (model : Model) (permutation : list Z) (df : DataFrame)
    (session : Session) (positions : list Z) : Result Session :=
  op ← match train_op model with
       | Some op => Ok op
       | None => Raise (AttributeError "train_op")
       end;
  rows ← rmapM (py_index permutation) positions;
  batch ← iloc df rows;
  feed ← feed_dict_helper FEATURE_NAMES batch;
  run_train_op session op feed.

(** The training steps on a list of minibatches, one after the other. *)
Fixpoint feed_all (model : Model) (permutation : list Z) (df : DataFrame)
    (batches : list (list Z)) (session : Session) : Result Session :=
  match batches with
  | [] => Ok session
  | positions :: batches' =>
      session ← feed_positions model permutation df session positions;
      feed_all model permutation df batches' session
  end.

(** The positions of training iteration [j] (counted from 0) of a cyclic
    sampler: [min(minibatch_size, num_rows)] consecutive positions from
    [j * min(minibatch_size, num_rows)] on, going back to 0 after
    [num_rows - 1]. *)
Definition minibatch_positions (num_rows minibatch_size : Z) (j : nat) : list Z :=
  let s := Z.min minibatch_size num_rows in
  cyclic num_rows (Z.of_nat j * s) (Z.to_nat s).

(** [σ'] is [σ] with the predictions written to the 'predictions' column of
    both frames (the test column last, should both names denote one frame)
    and nothing else changed. *)
Definition predictions_written (train test : Column) (σ σ' : Store) : Prop :=
  getitem_col (σ' test_df) "predictions" = Ok test /\
  (train_df <> test_df -> getitem_col (σ' train_df) "predictions" = Ok train) /\
  framed train_df test_df σ σ'.

(** [epochs_written g σ e σ']: from generator state [g] and store [σ], [e]
    iterations of the loop of [training_helper] lead to the store [σ']; in
    each of them the generator is resumed, yields a pair of prediction
    columns, and these are written to both frames. *)
Inductive epochs_written (model : Model) (num_iterations_per_loop : Z)
  : Generator -> Store -> nat -> Store -> Prop :=
  | epochs_none g σ :
      epochs_written model num_iterations_per_loop g σ O σ
  | epochs_next g g' σ σ1 σ' train test e :
      generator_next FEATURE_NAMES fuel model train_df test_df
        num_iterations_per_loop g σ = (σ, Ok (Some (train, test), g')) ->
      predictions_written train test σ σ1 ->
      epochs_written model num_iterations_per_loop g' σ1 e σ' ->
      epochs_written model num_iterations_per_loop g σ (S e) σ'.

End Reference.

End Reference.

(** * Properties *)

Lemma Qltb_lt x y : Qltb x y = true <-> (x < y)%Q.
Proof. unfold Qltb, Qlt. apply Z.ltb_lt. Qed.

Lemma Qleb_le x y : Qleb x y = true <-> (x <= y)%Q.
Proof. apply Qle_bool_iff. Qed.

Lemma Qltb_Qleb_neg x y : Qltb x y = negb (Qleb y x).
Proof.
  unfold Qltb, Qleb, Qle_bool. rewrite Z.leb_antisym. now rewrite negb_involutive.
Qed.

Lemma result_bind_Ok {A B} (m : Result A) (k : A -> Result B) b :
  (m ≫= k) = Ok b -> exists a, m = Ok a /\ k a = Ok b.
Proof. destruct m; simpl; intros; try discriminate. eauto. Qed.

Module MetricsFacts.
Import Frame Metrics Spec.

Lemma signed_label_reference l : signed_label l = reference_sign l.
Proof.
  unfold signed_label, reference_sign. rewrite (Qltb_Qleb_neg 0 l).
  destruct (Qleb l 0); reflexivity.
Qed.

Lemma count_nonpositive_zip predictions labels :
  count_nonpositive (zip_mul (map signed_label labels) predictions)
  = Z.of_nat (count_rows misclassified predictions labels).
Proof.
  unfold count_rows, zip_mul.
  revert labels; induction predictions as [|p ps IH]; intros [|l ls]; try reflexivity.
  cbn [map zip_with zip count_nonpositive fold_right List.filter fst snd].
  fold (count_nonpositive (zip_with Qmult (map signed_label ls) ps)).
  rewrite IH, signed_label_reference. unfold misclassified at 2.
  destruct (Qleb (reference_sign l * p) 0); cbn [length]; lia.
Qed.

Lemma np_multiply_same_length xs ys :
  length xs = length ys -> np_multiply xs ys = Ok (zip_mul xs ys).
Proof. intros E. unfold np_multiply. rewrite E, Nat.eqb_refl. reflexivity. Qed.

Lemma error_rate_same_length predictions labels :
  length labels = length predictions ->
  error_rate predictions labels =
    float_div (Z.of_nat (count_rows misclassified predictions labels))
              (Z.of_nat (length predictions)).
Proof.
  intros E. unfold error_rate.
  rewrite np_multiply_same_length by (rewrite length_map; exact E).
  cbn. now rewrite count_nonpositive_zip.
Qed.

Lemma float_div_fraction c n : n <> O -> float_div (Z.of_nat c) (Z.of_nat n) = Ok (fraction c n).
Proof.
  intros Hn. unfold float_div, fraction.
  destruct (Z.eqb_spec (Z.of_nat n) 0); [lia | reflexivity].
Qed.

Lemma error_rate_misclassified_fraction_aux (predictions labels : Column) :
  (1 <= length predictions)%nat ->
  length labels = length predictions ->
  error_rate predictions labels =
    Ok (fraction (count_rows misclassified predictions labels) (length predictions)).
Proof.
  intros Hn E. rewrite error_rate_same_length by exact E.
  apply float_div_fraction. lia.
Qed.

(** C1. On a prediction column of n >= 1 rows and a label column of n rows,
    [error_rate] returns the number of rows whose signed label (+1 for a
    label above 0, -1 otherwise) times the prediction is at most 0, divided
    by n. *)
Theorem error_rate_misclassified_fraction (predictions labels : Column) :
  (1 <= length predictions)%nat ->
  length labels = length predictions ->
  error_rate predictions labels =
    Ok (fraction (count_rows misclassified predictions labels) (length predictions)).
Proof.
  intros Hn E. rewrite error_rate_same_length by exact E.
  apply float_div_fraction. lia.
Qed.

Lemma error_rate_misclassified_fraction_witness :
  error_rate [(1#2)%Q; (-3#4)%Q; 0%Q] [1%Q; 1%Q; 0%Q] = Ok (fraction 2 3).
Proof.
  apply (error_rate_misclassified_fraction [(1#2)%Q; (-3#4)%Q; 0%Q] [1%Q; 1%Q; 0%Q]).
  - simpl. lia.
  - reflexivity.
Defined.

(** *** Churn against a baseline *)

Lemma misclassified_flips_or_zero new old :
  misclassified new old = flips_or_zero new old.
Proof.
  unfold misclassified, flips_or_zero, flips, predicted_positive, reference_sign.
  destruct (Qltb 0 old); destruct new as [[|a|a] b]; reflexivity.
Qed.

Lemma count_rows_ext (f g : Q -> Q -> bool) xs ys :
  (forall x y, f x y = g x y) -> count_rows f xs ys = count_rows g xs ys.
Proof.
  intros E. unfold count_rows. f_equal. apply List.filter_ext. intros r. apply E.
Qed.

(** C2, as stated, fails: with a new score of exactly 0 against a negative
    baseline score nothing flips (both predicted labels are negative), yet
    the churn metric counts the row. *)
Lemma churn_flip_fraction_counterexample :
  let df := mkDataFrame 1 [("predictions", [0%Q]); ("label", [0%Q]);
                           ("churn_label", [(-1)%Q])] in
  getitem_col df "predictions" = Ok [0%Q] /\
  getitem_col df CHURN_COLUMN = Ok [(-1)%Q] /\
  error_rate [0%Q] [(-1)%Q] = Ok (fraction 1 1) /\
  _get_error_rate_and_constraints df (1#40) = Ok (fraction 1 1, (fraction 1 1 - (1#40))%Q) /\
  count_rows flips [0%Q] [(-1)%Q] = 0%nat /\
  ~ (fraction 1 1 == fraction (count_rows flips [0%Q] [(-1)%Q]) 1)%Q.
Proof.
  cbv zeta. repeat split; try reflexivity. intros E. discriminate E.
Qed.

(** C2, amended.  When the churn_label column holds the baseline scores, the
    churn metric of [_get_error_rate_and_constraints] is the fraction of rows
    whose predicted label flips between the old and the new model or whose
    new score is exactly 0 (a predicted label is positive exactly for a score
    above 0); the second component returned is that fraction minus the
    maximum churn rate. *)
Theorem churn_counts_flips_and_zero_scores
    (df : DataFrame) (max_churn_rate : Q) (new old labels : Column) :
  getitem_col df "predictions" = Ok new ->
  getitem_col df CHURN_COLUMN = Ok old ->
  getitem_col df LABEL_COLUMN = Ok labels ->
  (1 <= length new)%nat ->
  length old = length new ->
  length labels = length new ->
  let churn := fraction (count_rows flips_or_zero new old) (length new) in
  error_rate new old = Ok churn /\
  exists e, _get_error_rate_and_constraints df max_churn_rate
            = Ok (e, (churn - max_churn_rate)%Q).
Proof.
  intros Hp Hc Hl Hn Eo El churn.
  assert (Hchurn : error_rate new old = Ok churn).
  { rewrite error_rate_misclassified_fraction_aux by assumption.
    unfold churn. do 2 f_equal. apply count_rows_ext, misclassified_flips_or_zero. }
  split; [exact Hchurn|].
  unfold _get_error_rate_and_constraints. rewrite Hp, Hl, Hc. cbn.
  rewrite (error_rate_misclassified_fraction_aux new labels) by assumption.
  cbn. rewrite Hchurn. cbn. eauto.
Qed.

Lemma churn_counts_flips_and_zero_scores_witness :
  let df := mkDataFrame 2 [("predictions", [0%Q; 1%Q]); ("label", [0%Q; 1%Q]);
                           ("churn_label", [(-1)%Q; (-2)%Q])] in
  error_rate [0%Q; 1%Q] [(-1)%Q; (-2)%Q] = Ok (fraction 2 2) /\
  exists e, _get_error_rate_and_constraints df (1#40)
            = Ok (e, (fraction 2 2 - (1#40))%Q).
Proof.
  cbv zeta.
  apply (churn_counts_flips_and_zero_scores
           (mkDataFrame 2 [("predictions", [0%Q; 1%Q]); ("label", [0%Q; 1%Q]);
                           ("churn_label", [(-1)%Q; (-2)%Q])])
           (1#40) [0%Q; 1%Q] [(-1)%Q; (-2)%Q] [0%Q; 1%Q]);
    try reflexivity.
  simpl. lia.
Defined.

(** *** Constraint violation *)

(** C3. For a dataframe with predictions, label and churn_label columns,
    [_get_error_rate_and_constraints] returns exactly when both error rates
    are defined, and its second component is then the error rate of the
    predictions against the churn_label column minus [max_churn_rate]. *)
Theorem violation_is_churn_rate_minus_max
    (df : DataFrame) (max_churn_rate : Q) (predictions labels churn_labels : Column) :
  getitem_col df "predictions" = Ok predictions ->
  getitem_col df LABEL_COLUMN = Ok labels ->
  getitem_col df CHURN_COLUMN = Ok churn_labels ->
  forall e v,
    _get_error_rate_and_constraints df max_churn_rate = Ok (e, v) <->
    error_rate predictions labels = Ok e /\
    exists r, error_rate predictions churn_labels = Ok r /\
              v = (r - max_churn_rate)%Q.
Proof.
  intros Hp Hl Hc e v. unfold _get_error_rate_and_constraints.
  rewrite Hp, Hl, Hc. cbn.
  destruct (error_rate predictions labels) as [e'| |]; cbn.
  - destruct (error_rate predictions churn_labels) as [r| |]; cbn.
    + split.
      * intros [= <- <-]. eauto.
      * intros [[= ->] (r' & [= <-] & ->)]. reflexivity.
    + split; [discriminate|]. intros [_ (r & Hr & _)]. discriminate.
    + split; [discriminate|]. intros [_ (r & Hr & _)]. discriminate.
  - split; [discriminate|]. intros [Hr _]. discriminate.
  - split; [discriminate|]. intros [Hr _]. discriminate.
Qed.

Lemma violation_is_churn_rate_minus_max_witness :
  let df := mkDataFrame 2 [("predictions", [1%Q; (-1)%Q]); ("label", [1%Q; 1%Q]);
                           ("churn_label", [1%Q; (-5)%Q])] in
  _get_error_rate_and_constraints df (1#20)
    = Ok (fraction 1 2, (fraction 0 2 - (1#20))%Q) <->
  error_rate [1%Q; (-1)%Q] [1%Q; 1%Q] = Ok (fraction 1 2) /\
  exists r, error_rate [1%Q; (-1)%Q] [1%Q; (-5)%Q] = Ok r /\
            (fraction 0 2 - (1#20))%Q = (r - (1#20))%Q.
Proof.
  cbv zeta.
  apply (violation_is_churn_rate_minus_max
           (mkDataFrame 2 [("predictions", [1%Q; (-1)%Q]); ("label", [1%Q; 1%Q]);
                           ("churn_label", [1%Q; (-5)%Q])])
           (1#20) [1%Q; (-1)%Q] [1%Q; 1%Q] [1%Q; (-5)%Q]); reflexivity.
Defined.

(** *** Division by the number of rows *)

(** C9. [error_rate] divides by [predictions.shape[0]] without a guard: on
    a non-empty prediction column (and labels of the same length) the
    quotient is returned; on an empty prediction column the call raises
    [ZeroDivisionError], and no label column makes it return a value. *)
Theorem error_rate_empty_raises (predictions labels : Column) :
  length labels = length predictions ->
  (predictions <> [] -> exists q, error_rate predictions labels = Ok q) /\
  (predictions = [] -> error_rate predictions labels = Raise ZeroDivisionError) /\
  (predictions = [] -> forall labels' q, error_rate predictions labels' <> Ok q).
Proof.
  intros E. repeat split.
  - intros Hne. eexists. apply error_rate_misclassified_fraction_aux; [|exact E].
    destruct predictions; [congruence | simpl; lia].
  - intros ->. destruct labels; [reflexivity | discriminate].
  - intros -> labels' q. unfold error_rate.
    destruct (np_multiply (map signed_label labels') []); cbn; discriminate.
Qed.

Lemma error_rate_empty_raises_witness :
  error_rate [] [] = Raise ZeroDivisionError.
Proof.
  apply (error_rate_empty_raises [] []); reflexivity.
Defined.

End MetricsFacts.

Module PreprocessFacts.
Import Frame Preprocess.

Lemma assoc_set_names c v cols c' :
  c' ∈ (assoc_set c v cols).*1 <-> c' = c \/ c' ∈ cols.*1.
Proof.
  induction cols as [|[c0 v0] rest IH]; cbn.
  - rewrite list_elem_of_singleton. rewrite elem_of_nil. tauto.
  - destruct (String.eqb_spec c c0) as [->|Hne]; cbn.
    + rewrite !elem_of_cons. tauto.
    + rewrite !elem_of_cons, IH. tauto.
Qed.

Lemma setitem_scalar_names df c x c' :
  c' ∈ column_names (setitem_scalar df c x) <-> c' = c \/ c' ∈ column_names df.
Proof. apply assoc_set_names. Qed.

Lemma set_difference_elem a b c :
  c ∈ set_difference a b <-> c ∈ a /\ c ∉ b.
Proof. unfold set_difference. now rewrite elem_of_remove_dups, list_elem_of_difference. Qed.

Lemma set_difference_nil a b :
  (forall c, c ∈ a -> c ∈ b) -> set_difference a b = [].
Proof.
  intros Hsub. destruct (set_difference a b) as [|c l] eqn:E; [reflexivity|].
  assert (Hc : c ∈ set_difference a b) by (rewrite E; apply list_elem_of_here).
  apply set_difference_elem in Hc as [Ha Hb]. destruct Hb. now apply Hsub.
Qed.

Lemma getitem_list_names df names df' :
  getitem_list df names = Ok df' -> column_names df' = names.
Proof.
  unfold getitem_list. intros Hg.
  apply result_bind_Ok in Hg as (cols & Hcols & [= <-]).
  unfold column_names; cbn. revert cols Hcols.
  induction names as [|c names IH]; intros cols; cbn.
  - intros [= <-]. reflexivity.
  - intros Hc. apply result_bind_Ok in Hc as ([c1 v1] & H1 & Hc).
    apply result_bind_Ok in Hc as (ys & Hys & [= <-]).
    apply result_bind_Ok in H1 as (v & _ & [= <- <-]).
    cbn. f_equal. now apply IH.
Qed.

(** The first loop adds every column of [cs] to the test frame. *)
Lemma fix_test_loop_names cs train test acc c :
  c ∈ column_names (fix_test_loop cs train test acc).1 <->
  c ∈ cs \/ c ∈ column_names test.
Proof.
  revert test acc. induction cs as [|c0 cs IH]; intros test acc; cbn.
  - rewrite elem_of_nil. tauto.
  - rewrite IH, setitem_scalar_names, elem_of_cons. tauto.
Qed.

(** The local [train_df_missing_cols] is bound only when the loop ran, and
    then holds the difference computed against the final test frame. *)
Lemma fix_test_loop_missing cs train test acc :
  (fix_test_loop cs train test acc).2 =
  match cs with
  | [] => acc
  | _ => Some (set_difference (column_names (fix_test_loop cs train test acc).1)
                              (column_names train))
  end.
Proof.
  revert test acc. induction cs as [|c0 cs IH]; intros test acc; [reflexivity|].
  cbn [fix_test_loop]. rewrite IH. destruct cs; reflexivity.
Qed.

Lemma fix_train_loop_names cs train test train' :
  fix_train_loop cs train test = Ok train' ->
  cs <> [] -> column_names train' = column_names test.
Proof.
  revert train. induction cs as [|c cs IH]; intros train; [congruence|].
  cbn [fix_train_loop]. intros Hloop _.
  apply result_bind_Ok in Hloop as (train1 & Hsel & Hloop).
  apply getitem_list_names in Hsel.
  destruct cs as [|c' cs].
  - cbn in Hloop. injection Hloop as <-. exact Hsel.
  - eapply IH; [exact Hloop | discriminate].
Qed.

(** Whenever [fix_columns] returns, the two frames have the same columns. *)
Lemma fix_columns_same_columns train test train' test' :
  fix_columns train test = Ok (train', test') ->
  forall c, c ∈ column_names train' <-> c ∈ column_names test'.
Proof.
  unfold fix_columns.
  pose proof (fix_test_loop_missing
                (set_difference (column_names train) (column_names test))
                train test None) as Hmissing.
  pose proof (fix_test_loop_names
                (set_difference (column_names train) (column_names test))
                train test None) as Hnames.
  destruct (fix_test_loop _ train test None) as [test1 missing]. cbn in Hmissing, Hnames.
  destruct (set_difference (column_names train) (column_names test)) as [|c0 cs] eqn:Ediff.
  { subst missing. discriminate. }
  rewrite <- Ediff in Hnames. subst missing.
  intros Hfix. apply result_bind_Ok in Hfix as (train1 & Hloop & [= <- <-]).
  destruct (set_difference (column_names test1) (column_names train)) as [|c1 cs1] eqn:E1.
  - cbn in Hloop. injection Hloop as <-. intros c. split.
    + intros Hc. apply Hnames.
      destruct (decide (c ∈ column_names test)) as [Hin|Hnin]; [now right|left].
      now apply set_difference_elem.
    + intros Hc. destruct (decide (c ∈ column_names train)) as [Hin|Hnin]; [exact Hin|].
      assert (Hd : c ∈ set_difference (column_names test1) (column_names train))
        by now apply set_difference_elem.
      rewrite E1 in Hd. now apply elem_of_nil in Hd.
  - apply fix_train_loop_names in Hloop; [|discriminate].
    intros c. now rewrite Hloop.
Qed.

(** When the test frame already has every column of the train frame, the
    first loop has nothing to iterate over and the second loop reads a local
    that was never assigned. *)
Lemma fix_columns_unbound train test :
  (forall c, c ∈ column_names train -> c ∈ column_names test) ->
  fix_columns train test = Raise (UnboundLocalError "train_df_missing_cols").
Proof.
  intros Hsub. unfold fix_columns. now rewrite set_difference_nil.
Qed.

Lemma binarize_unbound `{Pandas} input_train_df input_test_df categorical_columns
    binarized_train_df binarized_test_df :
  get_dummies input_train_df categorical_columns = Ok binarized_train_df ->
  get_dummies input_test_df categorical_columns = Ok binarized_test_df ->
  (forall c, c ∈ column_names binarized_train_df -> c ∈ column_names binarized_test_df) ->
  binarize_categorical_columns input_train_df input_test_df categorical_columns
  = Raise (UnboundLocalError "train_df_missing_cols").
Proof.
  intros Htrain Htest Hsub. unfold binarize_categorical_columns.
  rewrite Htrain, Htest. cbn. now rewrite fix_columns_unbound.
Qed.

(** C6.  [binarize_categorical_columns] is meant to return a train and a
    test frame with the same columns.  On a train and a test frame that
    binarize to the same columns it does not return: [fix_columns] raises
    [UnboundLocalError]. *)
Theorem binarize_same_columns_raises :
  let train := mkDataFrame 2 [("label", [1%Q; 0%Q]); ("age_0", [0%Q; 1%Q])] in
  let test := mkDataFrame 1 [("label", [0%Q]); ("age_0", [1%Q])] in
  fix_columns train test = Raise (UnboundLocalError "train_df_missing_cols") /\
  @binarize_categorical_columns nothing_to_encode train test []
  = Raise (UnboundLocalError "train_df_missing_cols").
Proof. split; reflexivity. Qed.

(** The same slip in the second loop: with two columns missing from the
    train frame, the train frame is re-indexed by the test columns before the
    second missing column was added, and the lookup raises [KeyError]. *)
Example fix_columns_two_missing_raises :
  let train := mkDataFrame 1 [("label", [1%Q]); ("race_A", [1%Q])] in
  let test := mkDataFrame 1 [("label", [0%Q]); ("race_B", [1%Q]); ("race_C", [0%Q])] in
  fix_columns train test = Raise (KeyError "race_C").
Proof. reflexivity. Qed.

(** On the shape of the notebook's data (one column missing from the test
    frame, none from the train frame) the call returns. *)
Example fix_columns_one_missing_returns :
  let train := mkDataFrame 1 [("label", [1%Q]); ("country_H", [1%Q])] in
  let test := mkDataFrame 2 [("label", [0%Q; 1%Q])] in
  fix_columns train test
  = Ok (train, mkDataFrame 2 [("label", [0%Q; 1%Q]); ("country_H", [0%Q; 0%Q])]).
Proof. reflexivity. Qed.

End PreprocessFacts.

Module GraphFacts.
Import Graph.

(** C7. [_construct_model] makes at most two dense-layer calls: for a
    non-zero [hidden_units] the output is a 1-unit linear dense layer over a
    hidden dense layer of [hidden_units] ReLU units over the input; for
    [hidden_units = None] it is the 1-unit linear dense layer over the input
    itself. *)
Theorem construct_model_layers (input_tensor : Tensor) (hidden_units : Z) :
  hidden_units <> 0 ->
  _construct_model input_tensor (Some hidden_units)
    = dense (dense input_tensor hidden_units (Some relu)) 1 None /\
  _construct_model input_tensor None = dense input_tensor 1 None.
Proof.
  intros Hne. split; [|reflexivity].
  unfold _construct_model, truthy.
  destruct (Z.eqb_spec hidden_units 0); [contradiction | reflexivity].
Qed.

Lemma construct_model_layers_witness :
  let input := placeholder [None; Some 3] "features_placeholder" in
  _construct_model input (Some 10) = dense (dense input 10 (Some relu)) 1 None /\
  _construct_model input None = dense input 1 None.
Proof.
  cbv zeta.
  apply (construct_model_layers (placeholder [None; Some 3] "features_placeholder") 10).
  lia.
Defined.

(** [hidden_units = 0] is false as a condition, like [None]. *)
Example construct_model_zero_units input_tensor :
  _construct_model input_tensor (Some 0) = dense input_tensor 1 None.
Proof. reflexivity. Qed.

(** C4. For every learning rate and value of [train_with_churn],
    [build_train_op] builds the minimization problem whose objective is the
    error rate over the labels context and whose constraint list is the
    single constraint [error rate over the churn context <= max_churn_rate]
    when [train_with_churn] holds and is empty otherwise; the operation that
    minimizes this problem is returned and stored in [train_op]. *)
Theorem build_train_op_problem (self : Model) (learning_rate : Q) (train_with_churn : bool) :
  let '(self', op) := build_train_op self learning_rate train_with_churn in
  let ctx := rate_context (predictions_tensor self) (labels_placeholder self) in
  let ctx_churn := rate_context (predictions_tensor self) (churn_placeholder self) in
  objective (train_problem op) = error_rate ctx /\
  constraints (train_problem op) =
    (if train_with_churn
     then [rate_le (error_rate ctx_churn) (max_churn_rate self)]
     else []) /\
  train_optimizer op = LagrangianOptimizerV1 (AdamOptimizer learning_rate) /\
  train_op self' = Some op.
Proof.
  cbn. repeat split.
Qed.

End GraphFacts.

Module SamplerFacts.
Import Frame Training Spec.

Lemma range_cyclic n a (d : nat) :
  0 <= a -> a + Z.of_nat d <= n ->
  range a (a + Z.of_nat d) = cyclic n a d.
Proof.
  intros Ha Hd. unfold range, cyclic, seqZ.
  replace (Z.to_nat (a + Z.of_nat d - a)) with d by lia.
  apply map_ext_in. intros j Hj%in_seq.
  rewrite Z.mod_small by lia. lia.
Qed.

Lemma map_seq_from {A} (f : nat -> A) k len :
  map f (seq k len) = map (fun j => f (k + j)%nat) (seq 0 len).
Proof.
  revert f k. induction len as [|len IH]; intros f k; [reflexivity|].
  cbn [seq map]. f_equal; [f_equal; lia|].
  rewrite (IH f (S k)), (IH (fun j => f (k + j)%nat) 1%nat).
  apply map_ext. intros j. f_equal. lia.
Qed.

Lemma cyclic_app n a (d1 d2 : nat) :
  cyclic n a (d1 + d2) = cyclic n a d1 ++ cyclic n ((a + Z.of_nat d1) mod n) d2.
Proof.
  unfold cyclic. rewrite seq_app, map_app. f_equal.
  rewrite map_seq_from. apply map_ext. intros j.
  rewrite Zplus_mod_idemp_l. f_equal. lia.
Qed.

Lemma cyclic_mod n a d : cyclic n (a mod n) d = cyclic n a d.
Proof.
  unfold cyclic. apply map_ext. intros j. now rewrite Zplus_mod_idemp_l.
Qed.

Lemma length_cyclic n a d : length (cyclic n a d) = d.
Proof. unfold cyclic. now rewrite length_map, length_seq. Qed.

Lemma cyclic_in_range n a d : 0 < n -> Forall (fun i => 0 <= i < n) (cyclic n a d).
Proof.
  intros Hn. unfold cyclic. apply Forall_forall. intros i Hi.
  apply list_elem_of_In, in_map_iff in Hi as (j & <- & _). now apply Z.mod_pos_bound.
Qed.

(** One pass through the loop body, from a state inside the bounds: it
    appends [d >= 1] cyclic positions and moves the start index past them. *)
Lemma while_body_step n s idx start :
  0 <= start < n ->
  Z.of_nat (length idx) < s ->
  let d := Z.to_nat (Z.min (n - start) (s - Z.of_nat (length idx))) in
  (1 <= d)%nat /\
  while_body n s (idx, start)
  = (idx ++ cyclic n start d, (start + Z.of_nat d) mod n).
Proof.
  intros Hstart Hlen d. split; [lia|].
  unfold while_body.
  destruct (Z.leb_spec n (start + s - Z.of_nat (length idx))) as [Hend|Hend].
  - assert (Hd : Z.of_nat d = n - start) by lia.
    rewrite <- (range_cyclic n start d) by lia.
    rewrite Hd. replace (start + (n - start)) with n by lia.
    now rewrite Z_mod_same_full.
  - assert (Hd : Z.of_nat d = s - Z.of_nat (length idx)) by lia.
    rewrite <- (range_cyclic n start d) by lia.
    rewrite Hd, Z.mod_small by lia.
    replace (start + (s - Z.of_nat (length idx))) with (start + s - Z.of_nat (length idx))
      by lia.
    reflexivity.
Qed.

(** The whole loop, with enough fuel: the list is completed to exactly
    [s] positions. *)
Lemma while_loop_completes fuel n s idx start :
  0 <= start < n ->
  Z.of_nat (length idx) <= s ->
  (Z.to_nat (s - Z.of_nat (length idx)) <= fuel)%nat ->
  while_loop fuel n s (idx, start)
  = Ok (idx ++ cyclic n start (Z.to_nat (s - Z.of_nat (length idx))),
        (start + (s - Z.of_nat (length idx))) mod n).
Proof.
  revert idx start. induction fuel as [|fuel IH]; intros idx start Hstart Hlen Hfuel.
  - cbn. unfold while_cond. cbn.
    destruct (Z.ltb_spec (Z.of_nat (length idx)) s); [lia|].
    replace (s - Z.of_nat (length idx)) with 0 by lia.
    cbn. rewrite app_nil_r, Z.add_0_r, Z.mod_small by lia. reflexivity.
  - cbn [while_loop]. unfold while_cond. cbn [fst].
    destruct (Z.ltb_spec (Z.of_nat (length idx)) s) as [Hlt|Hge].
    + destruct (while_body_step n s idx start Hstart Hlt) as [Hd ->].
      set (d := Z.to_nat (Z.min (n - start) (s - Z.of_nat (length idx)))) in *.
      rewrite IH.
      * rewrite length_app, length_cyclic, <- app_assoc. do 2 f_equal.
        -- f_equal.
           replace (Z.to_nat (s - Z.of_nat (length idx)))
             with (d + Z.to_nat (s - Z.of_nat (length idx + d)))%nat by lia.
           now rewrite cyclic_app.
        -- rewrite Zplus_mod_idemp_l. f_equal. lia.
      * apply Z.mod_pos_bound. lia.
      * rewrite length_app, length_cyclic. lia.
      * rewrite length_app, length_cyclic. lia.
    + replace (s - Z.of_nat (length idx)) with 0 by lia.
      cbn. rewrite app_nil_r, Z.add_0_r, Z.mod_small by lia. reflexivity.
Qed.

Lemma next_minibatch_cyclic fuel n s start :
  0 <= start < n -> 0 <= s ->
  (Z.to_nat s <= fuel)%nat ->
  next_minibatch fuel n s start = Ok (cyclic n start (Z.to_nat s), (start + s) mod n).
Proof.
  intros Hstart Hs Hfuel. unfold next_minibatch.
  rewrite while_loop_completes; cbn [length]; try lia.
  now rewrite Z.sub_0_r.
Qed.

Lemma minibatch_after_start fuel n s k :
  0 < n -> 0 <= s -> (Z.to_nat s <= fuel)%nat ->
  exists idx, minibatch_after fuel n s k = Ok (idx, (Z.of_nat k * s) mod n).
Proof.
  intros Hn Hs Hfuel. induction k as [|k [idx IH]].
  - exists []. cbn. now rewrite Z.mod_0_l by lia.
  - cbn [minibatch_after]. rewrite IH. cbn.
    rewrite next_minibatch_cyclic; try assumption.
    + eexists. f_equal. f_equal. rewrite Zplus_mod_idemp_l. f_equal. lia.
    + apply Z.mod_pos_bound. lia.
Qed.

Lemma py_index_in_range {A} (l : list A) i :
  0 <= i < Z.of_nat (length l) ->
  exists x, l !! Z.to_nat i = Some x /\ py_index l i = Ok x.
Proof.
  intros Hi. unfold py_index.
  destruct (Z.ltb_spec i 0); [lia|].
  destruct (Z.leb_spec 0 i); [|lia].
  destruct (Z.ltb_spec i (Z.of_nat (length l))); [|lia]. cbn.
  destruct (lookup_lt_is_Some_2 l (Z.to_nat i)) as [x Hx]; [lia|].
  exists x. now rewrite Hx.
Qed.

Lemma rmapM_py_index {A} (l : list A) idxs :
  Forall (fun i => 0 <= i < Z.of_nat (length l)) idxs ->
  exists rows, rmapM (py_index l) idxs = Ok rows /\
               Forall2 (fun i x => l !! Z.to_nat i = Some x) idxs rows.
Proof.
  induction 1 as [|i idxs Hi _ (rows & Hrows & Hall)].
  - exists []. split; [reflexivity | constructor].
  - destruct (py_index_in_range l i Hi) as (x & Hx & Hpy).
    exists (x :: rows). cbn. rewrite Hpy. cbn. rewrite Hrows. cbn.
    split; [reflexivity | now constructor].
Qed.

(** The sampler on its own, for [num_rows >= 1] and a requested size
    [>= 1]: iteration [k + 1] gathers the [min(minibatch_size, num_rows)]
    consecutive positions from [k * min(minibatch_size, num_rows)] on, and
    every position is a valid index into the permutation. *)
Lemma minibatch_sampler_cyclic (num_rows minibatch_size : Z) (fuel k : nat) :
  1 <= num_rows ->
  1 <= minibatch_size ->
  let s := Z.min minibatch_size num_rows in
  (Z.to_nat s <= fuel)%nat ->
  let indices := cyclic num_rows (Z.of_nat k * s) (Z.to_nat s) in
  minibatch_after fuel num_rows s (S k)
    = Ok (indices, (Z.of_nat (S k) * s) mod num_rows) /\
  length indices = Z.to_nat s /\
  forall permutation : list Z,
    Z.of_nat (length permutation) = num_rows ->
    exists rows,
      rmapM (py_index permutation) indices = Ok rows /\
      Forall2 (fun i x => permutation !! Z.to_nat i = Some x) indices rows.
Proof.
  intros Hn Hm s Hfuel indices.
  assert (Hs : 1 <= s <= num_rows) by lia.
  split; [|split].
  - destruct (minibatch_after_start fuel num_rows s k) as [idx Hk]; try lia.
    cbn [minibatch_after]. rewrite Hk. cbn.
    rewrite next_minibatch_cyclic; try lia.
    + unfold indices. rewrite cyclic_mod, Zplus_mod_idemp_l.
      do 3 f_equal. lia.
    + apply Z.mod_pos_bound. lia.
  - apply length_cyclic.
  - intros permutation Hperm. apply rmapM_py_index.
    rewrite Hperm. apply cyclic_in_range. lia.
Qed.

Lemma minibatch_sampler_cyclic_witness :
  minibatch_after 3 5 3 2 = Ok ([3; 4; 0], 1) /\
  length [3; 4; 0] = 3%nat /\
  forall permutation : list Z,
    Z.of_nat (length permutation) = 5 ->
    exists rows,
      rmapM (py_index permutation) [3; 4; 0] = Ok rows /\
      Forall2 (fun i x => permutation !! Z.to_nat i = Some x) [3; 4; 0] rows.
Proof.
  apply (minibatch_sampler_cyclic 5 3 3 1); simpl; lia.
Defined.

(** Bounds kept by every reachable state of the loop. *)
Lemma reachable_bounds n s st :
  1 <= s <= n ->
  reachable n s st ->
  0 <= st.2 < n /\ Z.of_nat (length st.1) <= s.
Proof.
  intros Hs. induction 1 as [|[idx start] _ [Hstart Hlen] Hcond
                             |[idx start] _ [Hstart Hlen] _]; cbn [fst snd length] in *.
  - lia.
  - unfold while_cond in Hcond. cbn in Hcond. apply Z.ltb_lt in Hcond.
    destruct (while_body_step n s idx start Hstart Hcond) as [Hd ->]. cbn [fst snd].
    rewrite length_app, length_cyclic. split; [apply Z.mod_pos_bound|]; lia.
  - lia.
Qed.

(** C10. With the minibatch size clamped to [min(minibatch_size, num_rows)],
    for [num_rows >= 1] and a requested size [>= 1]: in every state the
    inner [while] loop can reach, a pass through the body makes the index
    list strictly longer, and the loop terminates (it returns as soon as it
    is given as many iterations as there are indices still to gather). *)
Theorem while_loop_terminates (num_rows minibatch_size : Z) (st : LoopState) :
  1 <= num_rows ->
  1 <= minibatch_size ->
  let s := Z.min minibatch_size num_rows in
  reachable num_rows s st ->
  (while_cond s st = true ->
   (length st.1 < length (while_body num_rows s st).1)%nat) /\
  (forall fuel, (Z.to_nat s - length st.1 <= fuel)%nat ->
     exists st', while_loop fuel num_rows s st = Ok st' /\
                 while_cond s st' = false).
Proof.
  intros Hn Hm s Hreach.
  destruct (reachable_bounds num_rows s st) as [Hstart Hlen]; [lia | exact Hreach |].
  destruct st as [idx start]. cbn in Hstart, Hlen. split.
  - unfold while_cond. cbn [fst]. intros Hcond%Z.ltb_lt.
    destruct (while_body_step num_rows s idx start Hstart Hcond) as [Hd ->]. cbn [fst].
    rewrite length_app, length_cyclic. lia.
  - intros fuel Hfuel. cbn [fst] in Hfuel. eexists. split.
    + apply while_loop_completes; [exact Hstart | exact Hlen | lia].
    + unfold while_cond. cbn [fst]. rewrite length_app, length_cyclic.
      apply Z.ltb_ge. lia.
Qed.

Lemma while_loop_terminates_witness :
  exists st', while_loop 3 5 3 ([], 0) = Ok st' /\ while_cond 3 st' = false.
Proof.
  apply (while_loop_terminates 5 3 ([], 0)); [lia | lia | constructor | simpl; lia].
Defined.

End SamplerFacts.

Module HelperFacts.
Import Frame Graph Training Spec.

(** *** Frame conditions on the store *)

Lemma framed_refl train_df test_df σ : framed train_df test_df σ σ.
Proof. split; [split|]; reflexivity. Qed.

Lemma framed_trans train_df test_df σ1 σ2 σ3 :
  framed train_df test_df σ1 σ2 -> framed train_df test_df σ2 σ3 ->
  framed train_df test_df σ1 σ3.
Proof.
  intros [H12 K12] [H23 K23]. split.
  - intros r. destruct (H12 r) as [? ?], (H23 r) as [? ?]. split; congruence.
  - intros r Ht Hs. rewrite K23, K12 by assumption. reflexivity.
Qed.

Lemma read_only_bind {A B} (m : Prog A) (k : A -> Prog B) :
  read_only m -> (forall a, read_only (k a)) -> read_only (m ≫= k).
Proof.
  intros Hm Hk σ. unfold mbind, prog_bind. specialize (Hm σ).
  destruct (m σ) as [σ' [a| |]]; cbn in *; subst; try reflexivity. apply Hk.
Qed.

Lemma read_only_ret {A} (a : A) : read_only (ret a).
Proof. intros σ. reflexivity. Qed.

Lemma read_only_lift {A} (r : Result A) : read_only (lift r).
Proof. intros σ. reflexivity. Qed.

Lemma read_only_read r : read_only (read r).
Proof. intros σ. reflexivity. Qed.

Lemma read_only_preserves {A} train_df test_df (m : Prog A) :
  read_only m -> preserves train_df test_df m.
Proof. intros Hm σ. rewrite Hm. apply framed_refl. Qed.

Lemma preserves_bind {A B} train_df test_df (m : Prog A) (k : A -> Prog B) :
  preserves train_df test_df m -> (forall a, preserves train_df test_df (k a)) ->
  preserves train_df test_df (m ≫= k).
Proof.
  intros Hm Hk σ. unfold mbind, prog_bind. specialize (Hm σ).
  destruct (m σ) as [σ' [a| |]]; cbn in *; try exact Hm.
  eapply framed_trans; [exact Hm | apply Hk].
Qed.

Ltac read_only_tac :=
  repeat first
    [ apply read_only_ret | apply read_only_lift | apply read_only_read
    | apply read_only_bind; [|intros ?]
    | match goal with |- read_only (match ?x with _ => _ end) => destruct x end
    | match goal with |- read_only (let '(_, _) := ?x in _) => destruct x end ].

(** *** Assignment to the predictions column *)

Lemma assoc_set_other c v cols :
  List.filter (fun cv => negb (String.eqb cv.1 c)) (assoc_set c v cols)
  = List.filter (fun cv => negb (String.eqb cv.1 c)) cols.
Proof.
  induction cols as [|[c0 v0] rest IH]; cbn.
  - now rewrite String.eqb_refl.
  - destruct (String.eqb_spec c c0) as [->|Hne]; cbn.
    + now rewrite String.eqb_refl.
    + rewrite IH. reflexivity.
Qed.

Lemma assoc_get_set c v cols : assoc_get c (assoc_set c v cols) = Some v.
Proof.
  induction cols as [|[c0 v0] rest IH]; cbn.
  - now rewrite String.eqb_refl.
  - destruct (String.eqb_spec c c0) as [->|Hne]; cbn.
    + now rewrite String.eqb_refl.
    + destruct (String.eqb_spec c c0); [contradiction | exact IH].
Qed.

Lemma setitem_predictions_same df values df' :
  setitem df "predictions" values = Ok df' -> same_but_predictions df df'.
Proof.
  unfold setitem. destruct (Nat.eqb _ _); [|discriminate].
  intros [= <-]. split; [reflexivity|]. apply assoc_set_other.
Qed.

Lemma setitem_get df c values :
  length values = nrows df ->
  exists df', setitem df c values = Ok df' /\ getitem_col df' c = Ok values /\
              nrows df' = nrows df.
Proof.
  intros E. unfold setitem. rewrite E, Nat.eqb_refl. eexists. split; [reflexivity|].
  unfold getitem_col. cbn. now rewrite assoc_get_set.
Qed.

Section Helper.
Context `{Framework}.
Variable FEATURE_NAMES : list string.
Variable fuel : nat.
Variables train_df test_df : Ref.

Lemma assign_predictions_preserves r values :
  r = train_df \/ r = test_df ->
  preserves train_df test_df (assign_predictions r values).
Proof.
  intros Hr σ. unfold assign_predictions, read, lift, write, mbind, prog_bind.
  destruct (setitem (σ r) "predictions" values) as [df'| |] eqn:Hset; cbn;
    try apply framed_refl.
  apply setitem_predictions_same in Hset. split.
  - intros r0. unfold update. destruct (Nat.eqb_spec r0 r) as [->|_]; [exact Hset|].
    split; reflexivity.
  - intros r0 Ht Hs. unfold update.
    destruct (Nat.eqb_spec r0 r) as [->|_]; [|reflexivity]. destruct Hr; contradiction.
Qed.

Lemma read_only_iterate {S} n (f : S -> Prog S) s :
  (forall s, read_only (f s)) -> read_only (iterate n f s).
Proof.
  intros Hf. revert s. induction n as [|n IH]; intros s; cbn [iterate].
  - apply read_only_ret.
  - apply read_only_bind; [apply Hf | exact IH].
Qed.

Lemma training_generator_read_only minibatch_size num_loops :
  read_only (training_generator train_df minibatch_size num_loops).
Proof. unfold training_generator. read_only_tac. Qed.

Lemma training_iteration_read_only model g :
  read_only (training_iteration FEATURE_NAMES fuel model train_df g).
Proof. unfold training_iteration. read_only_tac. Qed.

(** The generator only reads the shared frames. *)
Lemma generator_next_read_only model num_iterations_per_loop g :
  read_only (generator_next FEATURE_NAMES fuel model train_df test_df
               num_iterations_per_loop g).
Proof.
  unfold generator_next. destruct (gen_loops_left g); [apply read_only_ret|].
  apply read_only_bind.
  - apply read_only_iterate. intros g'. apply training_iteration_read_only.
  - intros g'. read_only_tac.
Qed.

Lemma helper_body_preserves model train test acc :
  preserves train_df test_df (helper_body model train_df test_df train test acc).
Proof.
  unfold helper_body.
  apply preserves_bind; [apply assign_predictions_preserves; now left | intros _].
  apply preserves_bind; [apply assign_predictions_preserves; now right | intros _].
  apply read_only_preserves. read_only_tac.
Qed.

Lemma helper_loop_preserves n model num_iterations_per_loop g acc :
  preserves train_df test_df
    (helper_loop FEATURE_NAMES fuel n model train_df test_df
       num_iterations_per_loop g acc).
Proof.
  revert g acc. induction n as [|n IH]; intros g acc; cbn [helper_loop].
  - apply read_only_preserves, read_only_ret.
  - apply preserves_bind.
    + apply read_only_preserves, generator_next_read_only.
    + intros [[[train test]|] g'].
      * apply preserves_bind; [apply helper_body_preserves | intros acc'; apply IH].
      * apply read_only_preserves, read_only_ret.
Qed.

(** After the two assignments of the loop body the frames hold the yielded
    predictions (the test column wins when both names denote one frame). *)
Lemma helper_body_writes model train test acc σ :
  length train = nrows (σ train_df) ->
  length test = nrows (σ test_df) ->
  let σ' := (helper_body model train_df test_df train test acc σ).1 in
  getitem_col (σ' test_df) "predictions" = Ok test /\
  (train_df <> test_df -> getitem_col (σ' train_df) "predictions" = Ok train).
Proof.
  intros Htrain Htest.
  destruct (setitem_get (σ train_df) "predictions" train Htrain)
    as (df1 & Hset1 & Hget1 & Hrows1).
  set (σ1 := update σ train_df df1).
  assert (Htest1 : length test = nrows (σ1 test_df)).
  { unfold σ1, update. destruct (Nat.eqb_spec test_df train_df); congruence. }
  destruct (setitem_get (σ1 test_df) "predictions" test Htest1)
    as (df2 & Hset2 & Hget2 & Hrows2).
  set (σ2 := update σ1 test_df df2).
  assert (Hσ : (helper_body model train_df test_df train test acc σ).1 = σ2).
  { unfold helper_body, assign_predictions.
    unfold mbind at 1, prog_bind at 1.
    unfold mbind at 1, prog_bind at 1. unfold read at 1. cbn beta iota.
    unfold mbind at 1, prog_bind at 1. unfold lift at 1. rewrite Hset1. cbn beta iota.
    unfold write at 1. fold σ1.
    unfold mbind at 1, prog_bind at 1.
    unfold mbind at 1, prog_bind at 1. unfold read at 1. cbn beta iota.
    unfold mbind at 1, prog_bind at 1. unfold lift at 1. rewrite Hset2. cbn beta iota.
    unfold write at 1. fold σ2.
    pose proof (fun m Hm => @read_only_bind DataFrame Vectors (read train_df) m
                  (read_only_read train_df) Hm σ2) as Hro.
    apply Hro. intros df. read_only_tac. }
  cbv zeta. rewrite Hσ. unfold σ2, σ1, update. split.
  - now rewrite Nat.eqb_refl.
  - intros Hne. destruct (Nat.eqb_spec train_df test_df); [contradiction|].
    now rewrite Nat.eqb_refl.
Qed.

(** The generator starts with the clamped minibatch size and start index 0;
    each training iteration runs the sampler from the stored start index and
    stores the one it leaves. *)
Lemma training_generator_init minibatch_size num_loops σ :
  exists g,
    training_generator train_df minibatch_size num_loops σ = (σ, Ok g) /\
    gen_num_rows g = Z.of_nat (nrows (σ train_df)) /\
    gen_minibatch_size g = Z.min minibatch_size (Z.of_nat (nrows (σ train_df))) /\
    gen_minibatch_start_index g = 0.
Proof.
  unfold training_generator, mbind, prog_bind, read, ret. cbn.
  eexists. split; [reflexivity|]. cbn. repeat split.
Qed.

Lemma training_iteration_sampler model g g' σ σ' :
  training_iteration FEATURE_NAMES fuel model train_df g σ = (σ', Ok g') ->
  exists minibatch_indices,
    next_minibatch fuel (gen_num_rows g) (gen_minibatch_size g)
      (gen_minibatch_start_index g)
    = Ok (minibatch_indices, gen_minibatch_start_index g') /\
    gen_num_rows g' = gen_num_rows g /\
    gen_minibatch_size g' = gen_minibatch_size g /\
    gen_permutation g' = gen_permutation g.
Proof.
  unfold training_iteration, mbind, prog_bind, lift, read, ret.
  destruct (next_minibatch _ _ _ _) as [[idx start]| |]; try discriminate.
  repeat match goal with
         | |- context [match ?x with _ => _ end] => destruct x; try discriminate
         end.
  intros [= <- <-]. cbn. eauto.
Qed.

Lemma helper_loop_iteration n model num_iterations_per_loop g g' acc σ σ0 train test :
  generator_next FEATURE_NAMES fuel model train_df test_df num_iterations_per_loop g σ
    = (σ0, Ok (Some (train, test), g')) ->
  helper_loop FEATURE_NAMES fuel (S n) model train_df test_df
    num_iterations_per_loop g acc σ
  = (acc' ← helper_body model train_df test_df train test acc;
     helper_loop FEATURE_NAMES fuel n model train_df test_df
       num_iterations_per_loop g' acc') σ.
Proof.
  intros Hgen.
  pose proof (generator_next_read_only model num_iterations_per_loop g σ) as Hro.
  rewrite Hgen in Hro. cbn in Hro. subst σ0.
  cbn [helper_loop]. unfold mbind at 1, prog_bind at 1. rewrite Hgen. reflexivity.
Qed.

(** Whatever the outcome of a run of [training_helper], each frame of the
    store keeps its rows and all its columns other than ['predictions'], and
    the body of the loop writes the predictions it is given. *)
Lemma training_helper_frame model minibatch_size num_iterations_per_loop num_loops σ :
  let σ' := (training_helper FEATURE_NAMES fuel model train_df test_df
               minibatch_size num_iterations_per_loop num_loops σ).1 in
  (forall r, nrows (σ' r) = nrows (σ r) /\ other_columns (σ' r) = other_columns (σ r)) /\
  (forall r, r <> train_df -> r <> test_df -> σ' r = σ r) /\
  (forall n g g' acc σ0 train test,
     generator_next FEATURE_NAMES fuel model train_df test_df
       num_iterations_per_loop g σ0 = (σ0, Ok (Some (train, test), g')) ->
     length train = nrows (σ0 train_df) ->
     length test = nrows (σ0 test_df) ->
     let σ1 := (helper_body model train_df test_df train test acc σ0).1 in
     getitem_col (σ1 test_df) "predictions" = Ok test /\
     (train_df <> test_df -> getitem_col (σ1 train_df) "predictions" = Ok train) /\
     helper_loop FEATURE_NAMES fuel (S n) model train_df test_df
       num_iterations_per_loop g acc σ0
     = (acc' ← helper_body model train_df test_df train test acc;
        helper_loop FEATURE_NAMES fuel n model train_df test_df
          num_iterations_per_loop g' acc') σ0).
Proof.
  assert (Hp : preserves train_df test_df
                 (training_helper FEATURE_NAMES fuel model train_df test_df
                    minibatch_size num_iterations_per_loop num_loops)).
  { unfold training_helper. apply preserves_bind.
    - apply read_only_preserves, training_generator_read_only.
    - intros g. apply helper_loop_preserves. }
  destruct (Hp σ) as [Hsame Hother]. cbv zeta. split; [|split].
  - intros r. exact (Hsame r).
  - exact Hother.
  - intros n g g' acc σ0 train test Hgen Htrain Htest.
    destruct (helper_body_writes model train test acc σ0 Htrain Htest) as [Hw1 Hw2].
    split; [exact Hw1 | split; [exact Hw2|]].
    eapply helper_loop_iteration. exact Hgen.
Qed.

End Helper.

(** The run on the sample store: two epochs, the 'predictions' column of
    both frames ends up holding the scores of the last epoch, the other
    columns are as before. *)
Example training_helper_sample_run :
  let '(σ', result) :=
    @training_helper constant_scores ["age_0"] 2 sample_model 0%nat 1%nat 2 2 2
      sample_store in
  σ' 0%nat = mkDataFrame 3 (columns sample_train ++ [("predictions", [1%Q; 1%Q; 1%Q])]) /\
  σ' 1%nat = mkDataFrame 2 (columns sample_test ++ [("predictions", [1%Q; 1%Q])]) /\
  exists vectors, result = Ok vectors /\
    length (train_error_rate_vector vectors) = 2%nat /\
    train_constraints_matrix vectors
      = [(Spec.fraction 2 3 - (1#40))%Q; (Spec.fraction 2 3 - (1#40))%Q].
Proof.
  vm_compute. repeat split. eexists. repeat split.
Qed.

Lemma training_helper_frame_witness :
  let σ' := (@training_helper constant_scores ["age_0"] 2 sample_model 0%nat 1%nat
               2 2 2 sample_store).1 in
  (forall r, nrows (σ' r) = nrows (sample_store r) /\
             other_columns (σ' r) = other_columns (sample_store r)) /\
  (forall r, r <> 0%nat -> r <> 1%nat -> σ' r = sample_store r).
Proof.
  pose proof (@training_helper_frame constant_scores ["age_0"] 2 0%nat 1%nat
                sample_model 2 2 2 sample_store) as (Hsame & Hother & _).
  split; [exact Hsame | exact Hother].
Defined.

End HelperFacts.

(** * Further properties *)

Module MetricsMore.
Import Frame Metrics Spec Cells.

Lemma count_rows_le f xs ys : (count_rows f xs ys <= length xs)%nat.
Proof.
  unfold count_rows. revert ys. induction xs as [|x xs IH]; intros [|y ys]; cbn; try lia.
  specialize (IH ys). destruct (f x y); cbn; lia.
Qed.

Lemma fraction_bounds c n :
  (1 <= n)%nat -> (c <= n)%nat -> (0 <= fraction c n <= 1)%Q.
Proof.
  intros Hn Hc. unfold fraction.
  assert (Hpos : (0 < inject_Z (Z.of_nat n))%Q).
  { change 0%Q with (inject_Z 0). rewrite <- Zlt_Qlt. lia. }
  split.
  - apply Qle_shift_div_l; [exact Hpos|]. rewrite Qmult_0_l.
    change 0%Q with (inject_Z 0). rewrite <- Zle_Qle. lia.
  - apply Qle_shift_div_r; [exact Hpos|]. rewrite Qmult_1_l.
    rewrite <- Zle_Qle. lia.
Qed.

(** X1. On columns of the same length [n >= 1] the error rate is a value
    between 0 and 1. *)
Theorem error_rate_between_0_and_1 (predictions labels : Column) :
  (1 <= length predictions)%nat ->
  length labels = length predictions ->
  exists r, error_rate predictions labels = Ok r /\ (0 <= r <= 1)%Q.
Proof.
  intros Hn E. eexists. split.
  - apply MetricsFacts.error_rate_misclassified_fraction_aux; assumption.
  - apply fraction_bounds; [exact Hn | apply count_rows_le].
Qed.

Lemma error_rate_between_0_and_1_witness :
  exists r, error_rate [(1#2)%Q; (-3)%Q] [1%Q; 0%Q] = Ok r /\ (0 <= r <= 1)%Q.
Proof.
  apply (error_rate_between_0_and_1 [(1#2)%Q; (-3)%Q] [1%Q; 0%Q]); simpl; lia.
Defined.

(** *** Only signs matter *)

Lemma signed_label_idem l : signed_label (reference_sign l) = signed_label l.
Proof.
  rewrite !MetricsFacts.signed_label_reference. unfold reference_sign.
  destruct (Qltb 0 l); reflexivity.
Qed.

(** X3. [error_rate] reads a label only through its sign: recoding every
    label as [+1] (above zero) or [-1] (otherwise), for instance 0/1 labels
    as -1/+1 labels, leaves the outcome unchanged. *)
Theorem error_rate_label_recoding (predictions labels : Column) :
  error_rate predictions (map reference_sign labels) = error_rate predictions labels.
Proof.
  unfold error_rate. rewrite map_map.
  rewrite (map_ext _ signed_label signed_label_idem). reflexivity.
Qed.

(** *** Ties *)

Lemma misclassified_zero p l : (p == 0)%Q -> misclassified p l = true.
Proof.
  intros Hp. unfold misclassified. apply Qleb_le. rewrite Hp, Qmult_0_r. apply Qle_refl.
Qed.

Lemma count_rows_all f (xs ys : Column) :
  length ys = length xs ->
  Forall (fun x => forall y, f x y = true) xs ->
  count_rows f xs ys = length xs.
Proof.
  unfold count_rows. intros E Hall. revert ys E.
  induction Hall as [|x xs Hx _ IH]; intros [|y ys] E; try discriminate; [reflexivity|].
  cbn. rewrite Hx. cbn. f_equal. apply IH. now injection E.
Qed.

Lemma fraction_all n : (1 <= n)%nat -> (fraction n n == 1)%Q.
Proof.
  intros Hn. unfold fraction. apply Qmult_inv_r.
  change 0%Q with (inject_Z 0). rewrite inject_Z_injective. lia.
Qed.

(** X4. A score of exactly 0 counts as an error whatever the label: when
    every prediction is 0, the error rate is 1. *)
Theorem error_rate_all_zero_predictions (predictions labels : Column) :
  (1 <= length predictions)%nat ->
  length labels = length predictions ->
  Forall (fun p => p == 0)%Q predictions ->
  exists r, error_rate predictions labels = Ok r /\ (r == 1)%Q.
Proof.
  intros Hn E Hzero. eexists. split.
  - apply MetricsFacts.error_rate_misclassified_fraction_aux; assumption.
  - rewrite count_rows_all; [now apply fraction_all | exact E |].
    eapply Forall_impl; [exact Hzero|]. intros p Hp l. now apply misclassified_zero.
Qed.

Lemma error_rate_all_zero_predictions_witness :
  exists r, error_rate [0%Q; (0#3)%Q] [1%Q; 0%Q] = Ok r /\ (r == 1)%Q.
Proof.
  apply (error_rate_all_zero_predictions [0%Q; (0#3)%Q] [1%Q; 0%Q]).
  - simpl. lia.
  - reflexivity.
  - repeat constructor.
Defined.

(** *** Errors *)

(** X5. Columns of different lengths, neither of them a single row (which
    numpy would broadcast), make [error_rate] raise [ValueError]; this
    includes an empty prediction column against two or more labels, where
    the division is never reached. *)
Theorem error_rate_shape_mismatch (predictions labels : Column) :
  length labels <> length predictions ->
  length labels <> 1%nat ->
  length predictions <> 1%nat ->
  error_rate predictions labels = Raise ValueError.
Proof.
  intros Hne Hl Hp. unfold error_rate, np_multiply. rewrite length_map.
  destruct (Nat.eqb_spec (length labels) (length predictions)); [contradiction|].
  destruct labels as [|l [|l' ls]], predictions as [|q [|q' qs]];
    cbn in *; congruence.
Qed.

Lemma error_rate_shape_mismatch_witness :
  error_rate [] [1%Q; 0%Q] = Raise ValueError.
Proof.
  apply (error_rate_shape_mismatch [] [1%Q; 0%Q]); simpl; lia.
Defined.

Lemma assoc_get_None c cols : c ∉ cols.*1 -> assoc_get c cols = None.
Proof.
  induction cols as [|[c0 v0] rest IH]; cbn; [reflexivity|].
  rewrite not_elem_of_cons. intros [Hne Hrest].
  destruct (String.eqb_spec c c0); [contradiction | now apply IH].
Qed.

Lemma assoc_get_Some c cols : c ∈ cols.*1 -> exists v, assoc_get c cols = Some v.
Proof.
  induction cols as [|[c0 v0] rest IH]; cbn.
  - intros Hc. now apply elem_of_nil in Hc.
  - rewrite elem_of_cons. intros [->|Hc].
    + rewrite String.eqb_refl. eauto.
    + destruct (String.eqb c c0); eauto.
Qed.

Lemma getitem_col_absent df c :
  c ∉ column_names df -> getitem_col df c = Raise (KeyError c).
Proof. intros Hc. unfold getitem_col. now rewrite assoc_get_None. Qed.

(** X6. On a frame that has no 'predictions' column yet (no training epoch
    has written it), [_get_error_rate_and_constraints] raises [KeyError]
    for that column, whatever else the frame holds. *)
Theorem metrics_need_predictions (df : DataFrame) (max_churn_rate : Q) :
  "predictions" ∉ column_names df ->
  _get_error_rate_and_constraints df max_churn_rate = Raise (KeyError "predictions").
Proof.
  intros Hc. unfold _get_error_rate_and_constraints.
  rewrite (getitem_col_absent df "predictions" Hc). reflexivity.
Qed.

Lemma metrics_need_predictions_witness :
  _get_error_rate_and_constraints
    (mkDataFrame 1 [("label", [1%Q]); ("churn_label", [1%Q])]) (1#40)
  = Raise (KeyError "predictions").
Proof.
  apply (metrics_need_predictions
           (mkDataFrame 1 [("label", [1%Q]); ("churn_label", [1%Q])]) (1#40)).
  cbn. rewrite !not_elem_of_cons. repeat split; try discriminate. apply not_elem_of_nil.
Defined.

(** *** The churn labels of cells 6 and 8 *)

Lemma assoc_get_set_ne c c' v cols :
  c <> c' -> assoc_get c (assoc_set c' v cols) = assoc_get c cols.
Proof.
  intros Hne. induction cols as [|[c0 v0] rest IH]; cbn.
  - destruct (String.eqb_spec c c'); [contradiction | reflexivity].
  - destruct (String.eqb_spec c' c0) as [->|Hne0]; cbn.
    + destruct (String.eqb_spec c c0); [contradiction | reflexivity].
    + destruct (String.eqb c c0); [reflexivity | exact IH].
Qed.

Lemma copy_column_spec df dst src values :
  getitem_col df src = Ok values ->
  length values = nrows df ->
  exists df',
    copy_column df dst src = Ok df' /\
    getitem_col df' dst = Ok values /\
    (forall c, c <> dst -> getitem_col df' c = getitem_col df c) /\
    nrows df' = nrows df.
Proof.
  intros Hsrc Hlen. unfold copy_column. rewrite Hsrc. cbn.
  unfold setitem. rewrite Hlen, Nat.eqb_refl. eexists. split; [reflexivity|].
  unfold getitem_col. cbn. split; [|split; [|reflexivity]].
  - now rewrite HelperFacts.assoc_get_set.
  - intros c Hne. now rewrite assoc_get_set_ne.
Qed.

Lemma count_rows_diagonal (f g : Q -> Q -> bool) xs :
  (forall x, f x x = g x x) -> count_rows f xs xs = count_rows g xs xs.
Proof.
  intros E. unfold count_rows. induction xs as [|x xs IH]; [reflexivity|].
  cbn. rewrite E. destruct (g x x); cbn; now rewrite IH.
Qed.

Lemma misclassified_against_itself p : misclassified p p = zero_score p p.
Proof.
  rewrite MetricsFacts.misclassified_flips_or_zero.
  unfold flips_or_zero, flips, zero_score. now rewrite Bool.eqb_reflx.
Qed.

(** X7. Cell 8 makes the predictions of the baseline the churn labels
    ([df[CHURN_COLUMN] = df['predictions']]).  Measured right then, the churn
    of the model against itself is the fraction of rows whose score is
    exactly 0, and the violation is that fraction minus the maximum churn
    rate. *)
Theorem churn_against_itself (df : DataFrame) (max_churn_rate : Q)
    (predictions labels : Column) :
  getitem_col df "predictions" = Ok predictions ->
  getitem_col df LABEL_COLUMN = Ok labels ->
  length predictions = nrows df ->
  length labels = length predictions ->
  (1 <= length predictions)%nat ->
  exists df' e,
    copy_column df CHURN_COLUMN "predictions" = Ok df' /\
    _get_error_rate_and_constraints df' max_churn_rate
    = Ok (e, (fraction (count_rows zero_score predictions predictions)
                       (length predictions) - max_churn_rate)%Q).
Proof.
  intros Hp Hl Hrows El Hn.
  destruct (copy_column_spec df CHURN_COLUMN "predictions" predictions Hp Hrows)
    as (df' & Hcopy & Hchurn & Hother & _).
  exists df'. eexists. split; [exact Hcopy|].
  unfold _get_error_rate_and_constraints.
  rewrite (Hother "predictions"), (Hother LABEL_COLUMN), Hp, Hl, Hchurn by discriminate.
  cbn.
  rewrite (MetricsFacts.error_rate_misclassified_fraction_aux predictions labels)
    by assumption.
  cbn.
  rewrite (MetricsFacts.error_rate_misclassified_fraction_aux predictions predictions)
    by (assumption || reflexivity).
  cbn. rewrite (count_rows_diagonal misclassified zero_score)
    by apply misclassified_against_itself.
  reflexivity.
Qed.

Lemma churn_against_itself_witness :
  exists df' e,
    copy_column (mkDataFrame 2 [("label", [1%Q; 0%Q]); ("predictions", [(3#2)%Q; 0%Q])])
      CHURN_COLUMN "predictions" = Ok df' /\
    _get_error_rate_and_constraints df' (1#40)
    = Ok (e, (fraction 1 2 - (1#40))%Q).
Proof.
  apply (churn_against_itself
           (mkDataFrame 2 [("label", [1%Q; 0%Q]); ("predictions", [(3#2)%Q; 0%Q])])
           (1#40) [(3#2)%Q; 0%Q] [1%Q; 0%Q]); try reflexivity.
  simpl. lia.
Defined.

(** X8. Cell 6 initialises the churn labels to the true labels
    ([df[CHURN_COLUMN] = df[LABEL_COLUMN]]).  With that column the violation
    reported is the error rate itself minus the maximum churn rate. *)
Theorem churn_against_true_labels (df : DataFrame) (max_churn_rate : Q)
    (predictions labels : Column) :
  getitem_col df "predictions" = Ok predictions ->
  getitem_col df LABEL_COLUMN = Ok labels ->
  length labels = nrows df ->
  length labels = length predictions ->
  (1 <= length predictions)%nat ->
  exists df' e,
    copy_column df CHURN_COLUMN LABEL_COLUMN = Ok df' /\
    error_rate predictions labels = Ok e /\
    _get_error_rate_and_constraints df' max_churn_rate
    = Ok (e, (e - max_churn_rate)%Q).
Proof.
  intros Hp Hl Hrows El Hn.
  destruct (copy_column_spec df CHURN_COLUMN LABEL_COLUMN labels Hl Hrows)
    as (df' & Hcopy & Hchurn & Hother & _).
  exists df'. eexists. split; [exact Hcopy|].
  split; [apply MetricsFacts.error_rate_misclassified_fraction_aux; assumption|].
  unfold _get_error_rate_and_constraints.
  rewrite (Hother "predictions"), (Hother LABEL_COLUMN), Hp, Hl, Hchurn by discriminate.
  cbn.
  rewrite (MetricsFacts.error_rate_misclassified_fraction_aux predictions labels)
    by assumption.
  reflexivity.
Qed.

Lemma churn_against_true_labels_witness :
  exists df' e,
    copy_column (mkDataFrame 2 [("label", [1%Q; 0%Q]); ("predictions", [(3#2)%Q; 2%Q])])
      CHURN_COLUMN LABEL_COLUMN = Ok df' /\
    error_rate [(3#2)%Q; 2%Q] [1%Q; 0%Q] = Ok e /\
    _get_error_rate_and_constraints df' (1#40) = Ok (e, (e - (1#40))%Q).
Proof.
  apply (churn_against_true_labels
           (mkDataFrame 2 [("label", [1%Q; 0%Q]); ("predictions", [(3#2)%Q; 2%Q])])
           (1#40) [(3#2)%Q; 2%Q] [1%Q; 0%Q]); try reflexivity.
  simpl. lia.
Defined.

End MetricsMore.

Module PreprocessMore.
Import Frame Preprocess Cells.

Ltac decide_names := refine (bool_decide_unpack _ _); vm_compute; exact I.

(** *** Selecting a list of labels *)

Lemma getitem_col_present df c :
  c ∈ column_names df -> exists v, getitem_col df c = Ok v.
Proof.
  intros Hc. unfold getitem_col.
  destruct (MetricsMore.assoc_get_Some c (columns df) Hc) as [v ->]. eauto.
Qed.

Lemma getitem_list_present df names :
  Forall (fun c => c ∈ column_names df) names ->
  exists df', getitem_list df names = Ok df' /\ nrows df' = nrows df.
Proof.
  intros Hall. unfold getitem_list.
  assert (Hcols : exists cols,
            rmapM (fun c => v ← getitem_col df c; Ok (c, v)) names = Ok cols).
  { induction Hall as [|c names Hc _ [cols IH]].
    - exists []. reflexivity.
    - destruct (getitem_col_present df c Hc) as [v Hv].
      exists ((c, v) :: cols). cbn. rewrite Hv. cbn. rewrite IH. reflexivity. }
  destruct Hcols as [cols ->]. cbn. eauto.
Qed.

Lemma getitem_list_missing df names :
  ~ Forall (fun c => c ∈ column_names df) names ->
  exists c, c ∈ names /\ (c ∉ column_names df) /\
            getitem_list df names = Raise (KeyError c).
Proof.
  intros Hnot. unfold getitem_list.
  induction names as [|c names IH]; [destruct Hnot; constructor|].
  destruct (decide (c ∈ column_names df)) as [Hc|Hc].
  - destruct IH as (c' & Hin & Hout & Hraise).
    { intros Hall. apply Hnot. now constructor. }
    exists c'. split; [now apply list_elem_of_further | split; [exact Hout|]].
    destruct (getitem_col_present df c Hc) as [v Hv].
    cbn. rewrite Hv. cbn.
    destruct (rmapM _ names) as [cols| |]; cbn in *; congruence.
  - exists c. split; [apply list_elem_of_here | split; [exact Hc|]].
    cbn. rewrite (MetricsMore.getitem_col_absent df c Hc). reflexivity.
Qed.

Lemma getitem_list_get df names df' c :
  getitem_list df names = Ok df' -> c ∈ names ->
  getitem_col df' c = getitem_col df c.
Proof.
  unfold getitem_list. intros Hg.
  apply result_bind_Ok in Hg as (cols & Hcols & [= <-]).
  unfold getitem_col at 1. cbn. revert cols Hcols.
  induction names as [|c0 names IH]; intros cols Hcols Hin.
  - now apply elem_of_nil in Hin.
  - cbn in Hcols. apply result_bind_Ok in Hcols as ([c1 v1] & H1 & Hcols).
    apply result_bind_Ok in Hcols as (ys & Hys & [= <-]).
    apply result_bind_Ok in H1 as (v & Hv & [= <- <-]).
    cbn. destruct (String.eqb_spec c c0) as [->|Hne].
    + now rewrite Hv.
    + apply IH; [exact Hys|]. apply elem_of_cons in Hin as [?|?]; [contradiction|assumption].
Qed.

Lemma getitem_list_nrows df names df' :
  getitem_list df names = Ok df' -> nrows df' = nrows df.
Proof.
  unfold getitem_list. intros Hg.
  apply result_bind_Ok in Hg as (cols & _ & [= <-]). reflexivity.
Qed.

(** *** Adding a column *)

Lemma assoc_set_names_new c v cols :
  c ∉ cols.*1 -> (assoc_set c v cols).*1 = cols.*1 ++ [c].
Proof.
  induction cols as [|[c0 v0] rest IH]; cbn; [reflexivity|].
  rewrite not_elem_of_cons. intros [Hne Hrest].
  destruct (String.eqb_spec c c0); [contradiction|]. cbn. now rewrite IH.
Qed.

Lemma setitem_scalar_get df c x c' :
  getitem_col (setitem_scalar df c x) c' =
  if decide (c' = c) then Ok (replicate (nrows df) x) else getitem_col df c'.
Proof.
  unfold getitem_col, setitem_scalar. cbn. destruct (decide (c' = c)) as [->|Hne].
  - now rewrite HelperFacts.assoc_get_set.
  - now rewrite MetricsMore.assoc_get_set_ne.
Qed.

Lemma fix_test_loop_nrows cs train test acc :
  nrows (fix_test_loop cs train test acc).1 = nrows test.
Proof.
  revert test acc. induction cs as [|c cs IH]; intros test acc; [reflexivity|].
  cbn [fix_test_loop]. now rewrite IH.
Qed.

Lemma fix_test_loop_get cs train test acc c :
  getitem_col (fix_test_loop cs train test acc).1 c =
  if decide (c ∈ cs) then Ok (replicate (nrows test) 0%Q) else getitem_col test c.
Proof.
  revert test acc. induction cs as [|c0 cs IH]; intros test acc; cbn [fix_test_loop].
  - destruct (decide (c ∈ [])) as [Hc|_]; [now apply elem_of_nil in Hc | reflexivity].
  - rewrite IH, setitem_scalar_get. cbn.
    destruct (decide (c ∈ cs)) as [Hin|Hnin].
    + destruct (decide (c ∈ c0 :: cs)) as [_|Hn]; [reflexivity|].
      destruct Hn. now apply list_elem_of_further.
    + destruct (decide (c = c0)) as [->|Hne].
      * destruct (decide (c0 ∈ c0 :: cs)) as [_|Hn]; [reflexivity|].
        destruct Hn. apply list_elem_of_here.
      * destruct (decide (c ∈ c0 :: cs)) as [Hin|_]; [|reflexivity].
        apply elem_of_cons in Hin as [?|?]; contradiction.
Qed.

Lemma fix_test_loop_order cs train test acc :
  NoDup cs -> (forall c, c ∈ cs -> c ∉ column_names test) ->
  column_names (fix_test_loop cs train test acc).1 = column_names test ++ cs.
Proof.
  revert test acc. induction cs as [|c cs IH]; intros test acc Hnd Hout;
    cbn [fix_test_loop].
  - now rewrite app_nil_r.
  - apply NoDup_cons in Hnd as [Hc Hnd]. rewrite IH.
    + unfold column_names, setitem_scalar. cbn.
      rewrite assoc_set_names_new by (apply Hout; apply list_elem_of_here).
      now rewrite <- app_assoc.
    + exact Hnd.
    + intros c' Hc'. rewrite PreprocessFacts.setitem_scalar_names.
      intros [->|Hin]; [contradiction|].
      exact (Hout c' (list_elem_of_further _ _ _ Hc') Hin).
Qed.

Lemma list_difference_app (l k b : list string) :
  list_difference (l ++ k) b = list_difference l b ++ list_difference k b.
Proof.
  induction l as [|x l IH]; [reflexivity|]. cbn.
  destruct (decide_rel elem_of x b); cbn; now rewrite IH.
Qed.

Lemma list_difference_nil (k b : list string) :
  (forall c, c ∈ k -> c ∈ b) -> list_difference k b = [].
Proof.
  intros Hsub. destruct (list_difference k b) as [|c l] eqn:E; [reflexivity|].
  assert (Hc : c ∈ list_difference k b) by (rewrite E; apply list_elem_of_here).
  apply list_elem_of_difference in Hc as [Hk Hb]. destruct Hb. now apply Hsub.
Qed.

(** The columns the train frame misses are computed against the completed
    test frame, which adds nothing the train frame lacks. *)
Lemma missing_after_completion train test :
  set_difference (column_names test ++
                  set_difference (column_names train) (column_names test))
                 (column_names train)
  = set_difference (column_names test) (column_names train).
Proof.
  unfold set_difference at 1 3. rewrite list_difference_app.
  rewrite (list_difference_nil (set_difference _ _)), app_nil_r; [reflexivity|].
  intros c Hc. now apply PreprocessFacts.set_difference_elem in Hc as [Hc _].
Qed.

Lemma set_difference_NoDup a b : NoDup (set_difference a b).
Proof. apply NoDup_remove_dups. Qed.

(** [fix_columns] in terms of the two sets of missing columns. *)
Lemma fix_columns_unfold train test :
  let test_missing := set_difference (column_names train) (column_names test) in
  let train_missing := set_difference (column_names test) (column_names train) in
  let test' := (fix_test_loop test_missing train test None).1 in
  test_missing <> [] ->
  column_names test' = column_names test ++ test_missing /\
  fix_columns train test =
    (train' ← fix_train_loop train_missing train test'; Ok (train', test')).
Proof.
  intros test_missing train_missing test' Hne.
  assert (Horder : column_names test' = column_names test ++ test_missing).
  { apply fix_test_loop_order; [apply set_difference_NoDup|].
    intros c Hc. now apply PreprocessFacts.set_difference_elem in Hc as [_ Hc]. }
  split; [exact Horder|].
  unfold fix_columns. fold test_missing.
  pose proof (PreprocessFacts.fix_test_loop_missing test_missing train test None) as Hm.
  fold test' in Hm. rewrite Horder in Hm.
  subst test_missing train_missing test'.
  rewrite missing_after_completion in Hm.
  destruct (fix_test_loop _ train test None) as [t m].
  cbn [fst snd] in Hm |- *. rewrite Hm.
  destruct (set_difference (column_names train) (column_names test));
    [contradiction | reflexivity].
Qed.

Lemma fix_columns_cases (train test : DataFrame) :
  let test_missing := set_difference (column_names train) (column_names test) in
  let train_missing := set_difference (column_names test) (column_names train) in
  match fix_columns train test with
  | Ok _ => test_missing <> [] /\ (length train_missing <= 1)%nat
  | Raise (UnboundLocalError name) =>
      test_missing = [] /\ name = "train_df_missing_cols"
  | Raise (KeyError c) =>
      test_missing <> [] /\ (2 <= length train_missing)%nat /\ c ∈ train_missing
  | _ => False
  end.
Proof.
  intros test_missing train_missing.
  destruct test_missing as [|c0 cs] eqn:Etm.
  { rewrite PreprocessFacts.fix_columns_unbound; [now split|].
    intros c Hc. destruct (decide (c ∈ column_names test)) as [Hin|Hnin]; [exact Hin|].
    assert (Hd : c ∈ test_missing)
      by (apply PreprocessFacts.set_difference_elem; now split).
    rewrite Etm in Hd. now apply elem_of_nil in Hd. }
  destruct (fix_columns_unfold train test) as [Horder ->].
  { fold test_missing. rewrite Etm. discriminate. }
  fold test_missing train_missing. rewrite <- Etm.
  set (test' := (fix_test_loop test_missing train test None).1) in *.
  change (column_names test' = column_names test ++ test_missing) in Horder.
  assert (Hne : test_missing <> []) by (rewrite Etm; discriminate).
  assert (Htm : forall c, c ∈ test_missing -> c ∈ column_names train).
  { intros c Hc. now apply PreprocessFacts.set_difference_elem in Hc as [Hc _]. }
  assert (Htrm : forall c, c ∈ train_missing <->
                           c ∈ column_names test /\ c ∉ column_names train).
  { intros c. apply PreprocessFacts.set_difference_elem. }
  pose proof (set_difference_NoDup (column_names test) (column_names train)) as Hnd.
  fold train_missing in Hnd.
  destruct train_missing as [|c1 [|c2 rest]] eqn:Etrm.
  - cbn. split; [exact Hne | lia].
  - cbn [fix_train_loop].
    destruct (getitem_list_present (setitem_scalar train c1 0) (column_names test'))
      as (train2 & -> & _).
    { apply Forall_forall. intros c Hc. rewrite Horder, elem_of_app in Hc.
      apply PreprocessFacts.setitem_scalar_names.
      destruct Hc as [Hc|Hc]; [|right; now apply Htm].
      destruct (decide (c ∈ column_names train)) as [Hin|Hnin]; [now right|left].
      assert (Hd : c ∈ [c1]) by (apply Htrm; now split).
      now apply list_elem_of_singleton in Hd. }
    cbn. split; [exact Hne | lia].
  - cbn [fix_train_loop].
    destruct (getitem_list_missing (setitem_scalar train c1 0) (column_names test'))
      as (c & Hin & Hout & ->).
    { rewrite Forall_forall. intros Hall.
      assert (Hc2 : c2 ∈ column_names test').
      { rewrite Horder, elem_of_app. left.
        apply (Htrm c2), list_elem_of_further, list_elem_of_here. }
      apply Hall, PreprocessFacts.setitem_scalar_names in Hc2 as [->|Hc2].
      - apply NoDup_cons in Hnd as [Hnd _]. apply Hnd, list_elem_of_here.
      - assert (Hd : c2 ∈ c1 :: c2 :: rest)
          by apply list_elem_of_further, list_elem_of_here.
        apply Htrm in Hd as [_ Hd]. contradiction. }
    cbn. split; [exact Hne | split; [lia|]].
    rewrite PreprocessFacts.setitem_scalar_names in Hout.
    apply Htrm. split.
    + rewrite Horder, elem_of_app in Hin. destruct Hin as [Hin|Hin]; [exact Hin|].
      destruct Hout. right. now apply Htm.
    + intros Hc. apply Hout. now right.
Qed.

(** X9. The outcome of [fix_columns] is decided by the two sets of missing
    columns: it raises [UnboundLocalError] exactly when the test frame misses
    no column of the train frame; otherwise it raises [KeyError] (for a
    column the train frame misses) exactly when the train frame misses two or
    more columns of the test frame; it returns in the remaining case only. *)
Theorem fix_columns_outcome (train test : DataFrame) :
  let test_missing := set_difference (column_names train) (column_names test) in
  let train_missing := set_difference (column_names test) (column_names train) in
  match fix_columns train test with
  | Ok _ => test_missing <> [] /\ (length train_missing <= 1)%nat
  | Raise (UnboundLocalError name) =>
      test_missing = [] /\ name = "train_df_missing_cols"
  | Raise (KeyError c) =>
      test_missing <> [] /\ (2 <= length train_missing)%nat /\ c ∈ train_missing
  | _ => False
  end.
Proof. exact (fix_columns_cases train test). Qed.

(** What a returning call of [fix_columns] did. *)
Lemma fix_columns_Ok_inv train test train' test' :
  fix_columns train test = Ok (train', test') ->
  let test_missing := set_difference (column_names train) (column_names test) in
  let train_missing := set_difference (column_names test) (column_names train) in
  test' = (fix_test_loop test_missing train test None).1 /\
  column_names test' = column_names test ++ test_missing /\
  ((train_missing = [] /\ train' = train) \/
   (exists c, train_missing = [c] /\
              getitem_list (setitem_scalar train c 0) (column_names test') = Ok train')).
Proof.
  intros Hfix test_missing train_missing.
  destruct test_missing as [|c0 cs] eqn:Etm.
  { rewrite PreprocessFacts.fix_columns_unbound in Hfix; [discriminate|].
    intros c Hc. destruct (decide (c ∈ column_names test)) as [Hin|Hnin]; [exact Hin|].
    assert (Hd : c ∈ test_missing)
      by (apply PreprocessFacts.set_difference_elem; now split).
    rewrite Etm in Hd. now apply elem_of_nil in Hd. }
  destruct (fix_columns_unfold train test) as [Horder Heq].
  { fold test_missing. rewrite Etm. discriminate. }
  fold test_missing train_missing in Horder, Heq. rewrite Heq in Hfix.
  rewrite <- Etm. clear Heq.
  destruct train_missing as [|c1 [|c2 rest]] eqn:Etrm.
  - cbn in Hfix. injection Hfix as <- <-. split; [reflexivity|]. split; [exact Horder|].
    now left.
  - cbn [fix_train_loop] in Hfix.
    apply result_bind_Ok in Hfix as (t1 & Hloop & [= <- <-]).
    apply result_bind_Ok in Hloop as (t2 & Hsel & [= <-]).
    split; [reflexivity|]. split; [exact Horder|]. right. eauto.
  - pose proof (fix_columns_cases train test) as Hout. cbv zeta in Hout.
    fold train_missing in Hout. rewrite Etrm in Hout.
    destruct (fix_columns_unfold train test) as [_ Heq].
    { fold test_missing. rewrite Etm. discriminate. }
    fold test_missing train_missing in Heq. rewrite Etrm in Heq.
    rewrite Heq, Hfix in Hout. cbn in Hout. lia.
Qed.

(** X10. Whenever [binarize_categorical_columns] returns, the two frames it
    returns have the same set of columns, whatever the one-hot encoder
    produced. *)
Theorem binarize_returns_same_columns `{Pandas}
    (input_train_df input_test_df : RawFrame) (categorical_columns : list string)
    (fixed_train_df fixed_test_df : DataFrame) :
  binarize_categorical_columns input_train_df input_test_df categorical_columns
    = Ok (fixed_train_df, fixed_test_df) ->
  forall c, c ∈ column_names fixed_train_df <-> c ∈ column_names fixed_test_df.
Proof.
  unfold binarize_categorical_columns. intros Hbin.
  apply result_bind_Ok in Hbin as (btrain & _ & Hbin).
  apply result_bind_Ok in Hbin as (btest & _ & Hbin).
  apply result_bind_Ok in Hbin as ([t1 t2] & Hfix & [= <- <-]).
  now apply (PreprocessFacts.fix_columns_same_columns btrain btest).
Qed.

Lemma binarize_returns_same_columns_witness :
  "country_H" ∈ column_names (mkDataFrame 1 [("label", [1%Q]); ("country_H", [1%Q])]) <->
  "country_H" ∈
    column_names (mkDataFrame 2 [("label", [0%Q; 1%Q]); ("country_H", [0%Q; 0%Q])]).
Proof.
  apply (@binarize_returns_same_columns nothing_to_encode
           (mkDataFrame 1 [("label", [1%Q]); ("country_H", [1%Q])])
           (mkDataFrame 2 [("label", [0%Q; 1%Q])]) []).
  reflexivity.
Defined.

(** X11. A returning call of [fix_columns] keeps the data: both frames keep
    their number of rows and the content of every column they had, and every
    column added to a frame is filled with 0. *)
Theorem fix_columns_keeps_data (train test train' test' : DataFrame) :
  fix_columns train test = Ok (train', test') ->
  nrows train' = nrows train /\ nrows test' = nrows test /\
  (forall c, c ∈ column_names train -> getitem_col train' c = getitem_col train c) /\
  (forall c, c ∈ column_names test -> getitem_col test' c = getitem_col test c) /\
  (forall c, c ∈ column_names train' -> c ∉ column_names train ->
             getitem_col train' c = Ok (replicate (nrows train) 0%Q)) /\
  (forall c, c ∈ column_names test' -> c ∉ column_names test ->
             getitem_col test' c = Ok (replicate (nrows test) 0%Q)).
Proof.
  intros Hfix.
  pose proof (PreprocessFacts.fix_columns_same_columns _ _ _ _ Hfix) as Hsame.
  destruct (fix_columns_Ok_inv _ _ _ _ Hfix) as (Htest & Horder & Htrain).
  set (test_missing := set_difference (column_names train) (column_names test)) in *.
  set (train_missing := set_difference (column_names test) (column_names train)) in *.
  assert (Hget : forall c, getitem_col test' c =
            if decide (c ∈ test_missing) then Ok (replicate (nrows test) 0%Q)
            else getitem_col test c).
  { intros c. rewrite Htest. apply fix_test_loop_get. }
  assert (Hin_test' : forall c, c ∈ column_names test' <->
                                c ∈ column_names test \/ c ∈ test_missing).
  { intros c. now rewrite Horder, elem_of_app. }
  assert (Htm : forall c, c ∈ test_missing <->
                          c ∈ column_names train /\ c ∉ column_names test).
  { intros c. apply PreprocessFacts.set_difference_elem. }
  assert (Htrm : forall c, c ∈ train_missing <->
                           c ∈ column_names test /\ c ∉ column_names train).
  { intros c. apply PreprocessFacts.set_difference_elem. }
  assert (Htrain_data :
    nrows train' = nrows train /\
    (forall c, c ∈ column_names train -> getitem_col train' c = getitem_col train c) /\
    (forall c, c ∈ column_names train' -> c ∉ column_names train ->
               getitem_col train' c = Ok (replicate (nrows train) 0%Q))).
  { destruct Htrain as [[_ ->]|(c1 & Etrm & Hsel)].
    - split; [reflexivity|]. split; [reflexivity|]. intros c Hc Hn. contradiction.
    - assert (Hc1 : c1 ∉ column_names train).
      { assert (Hd : c1 ∈ train_missing) by (rewrite Etrm; apply list_elem_of_here).
        now apply Htrm in Hd. }
      split; [now rewrite (getitem_list_nrows _ _ _ Hsel)|]. split.
      + intros c Hc.
        rewrite (getitem_list_get _ _ _ c Hsel), setitem_scalar_get.
        * destruct (decide (c = c1)) as [->|_]; [contradiction | reflexivity].
        * apply Hin_test'. destruct (decide (c ∈ column_names test)); [now left|right].
          now apply Htm.
      + intros c Hc Hn.
        rewrite (getitem_list_get _ _ _ c Hsel), setitem_scalar_get.
        * destruct (decide (c = c1)) as [_|Hne]; [reflexivity|].
          apply Hsame, Hin_test' in Hc as [Hc|Hc].
          -- assert (Hd : c ∈ train_missing) by (apply Htrm; now split).
             rewrite Etrm in Hd. now apply list_elem_of_singleton in Hd.
          -- apply Htm in Hc as [Hc _]. contradiction.
        * now apply Hsame. }
  destruct Htrain_data as (Hrows & Hkeep & Hnew).
  split; [exact Hrows|]. split; [rewrite Htest; apply fix_test_loop_nrows|].
  split; [exact Hkeep|]. split; [|split; [exact Hnew|]].
  - intros c Hc. rewrite Hget.
    destruct (decide (c ∈ test_missing)) as [Hd|_]; [|reflexivity].
    apply Htm in Hd as [_ Hd]. contradiction.
  - intros c Hc Hn. rewrite Hget.
    destruct (decide (c ∈ test_missing)) as [_|Hd]; [reflexivity|].
    apply Hin_test' in Hc as [Hc|Hc]; contradiction.
Qed.

Lemma fix_columns_keeps_data_witness :
  let train := mkDataFrame 1 [("label", [1%Q]); ("country_H", [1%Q])] in
  let test := mkDataFrame 2 [("country_X", [1%Q; 0%Q]); ("label", [0%Q; 1%Q])] in
  exists train' test',
    fix_columns train test = Ok (train', test') /\
    getitem_col train' "country_X" = Ok [0%Q] /\
    getitem_col test' "country_H" = Ok [0%Q; 0%Q] /\
    getitem_col test' "label" = Ok [0%Q; 1%Q].
Proof.
  cbv zeta. eexists. eexists. split; [reflexivity|].
  destruct (fix_columns_keeps_data
              (mkDataFrame 1 [("label", [1%Q]); ("country_H", [1%Q])])
              (mkDataFrame 2 [("country_X", [1%Q; 0%Q]); ("label", [0%Q; 1%Q])])
              _ _ eq_refl) as (_ & _ & _ & Hkeep & Hnew_train & Hnew_test).
  split; [|split].
  - apply (Hnew_train "country_X"); decide_names.
  - apply (Hnew_test "country_H"); decide_names.
  - apply (Hkeep "label"); decide_names.
Defined.

(** X12. A returning call of [fix_columns] appends the columns the test frame
    missed, each once, after the test frame's own columns; the train frame
    comes back either untouched (when it missed nothing, so its column order
    need not be that of the test frame) or re-indexed to exactly the column
    order of the returned test frame. *)
Theorem fix_columns_column_order (train test train' test' : DataFrame) :
  fix_columns train test = Ok (train', test') ->
  (exists added,
     column_names test' = column_names test ++ added /\
     NoDup added /\
     forall c, c ∈ added <-> c ∈ column_names train /\ c ∉ column_names test) /\
  ((train' = train /\
    forall c, c ∈ column_names test -> c ∈ column_names train) \/
   column_names train' = column_names test').
Proof.
  intros Hfix. destruct (fix_columns_Ok_inv _ _ _ _ Hfix) as (_ & Horder & Htrain).
  split.
  - eexists. split; [exact Horder|]. split; [apply set_difference_NoDup|].
    intros c. apply PreprocessFacts.set_difference_elem.
  - destruct Htrain as [[Hnil ->]|(c & _ & Hsel)]; [left | right].
    + split; [reflexivity|]. intros c Hc.
      destruct (decide (c ∈ column_names train)) as [Hin|Hnin]; [exact Hin|].
      assert (Hd : c ∈ set_difference (column_names test) (column_names train))
        by (apply PreprocessFacts.set_difference_elem; now split).
      rewrite Hnil in Hd. now apply elem_of_nil in Hd.
    + now apply PreprocessFacts.getitem_list_names in Hsel.
Qed.

Lemma fix_columns_column_order_witness :
  let train := mkDataFrame 1 [("label", [1%Q]); ("country_H", [1%Q])] in
  let test := mkDataFrame 2 [("country_X", [1%Q; 0%Q]); ("label", [0%Q; 1%Q])] in
  exists train' test',
    fix_columns train test = Ok (train', test') /\
    column_names test' = ["country_X"; "label"; "country_H"] /\
    column_names train' = ["country_X"; "label"; "country_H"].
Proof.
  cbv zeta. eexists. eexists. split; [reflexivity|].
  destruct (fix_columns_column_order
              (mkDataFrame 1 [("label", [1%Q]); ("country_H", [1%Q])])
              (mkDataFrame 2 [("country_X", [1%Q; 0%Q]); ("label", [0%Q; 1%Q])])
              _ _ eq_refl) as [_ [[Habs _]|Horder]]; [discriminate Habs|].
  split; [reflexivity | exact Horder].
Defined.

(** *** Feature names *)

Lemma list_remove_absent x l : x ∉ l -> list_remove x l = Raise ValueError.
Proof.
  induction l as [|y l IH]; [reflexivity|]. rewrite not_elem_of_cons. intros [Hne Hl].
  cbn. destruct (String.eqb_spec y x); [congruence|]. now rewrite IH.
Qed.

Lemma list_remove_NoDup x l :
  NoDup l -> x ∈ l ->
  list_remove x l = Ok (List.filter (fun c => negb (String.eqb c x)) l).
Proof.
  induction 1 as [|y l Hy Hnd IH]; intros Hx; [now apply elem_of_nil in Hx|].
  cbn. destruct (String.eqb_spec y x) as [->|Hne]; cbn.
  - f_equal. clear IH Hx Hnd. induction l as [|z l IH]; [reflexivity|].
    apply not_elem_of_cons in Hy as [Hz Hl]. cbn.
    destruct (String.eqb_spec z x); [congruence|]. cbn. f_equal. now apply IH.
  - apply elem_of_cons in Hx as [?|Hx]; [congruence|]. now rewrite IH.
Qed.

Lemma list_remove_subset x l l' c : list_remove x l = Ok l' -> c ∈ l' -> c ∈ l.
Proof.
  revert l'. induction l as [|y l IH]; intros l'; cbn; [discriminate|].
  destruct (String.eqb y x).
  - intros [= <-] Hc. now apply list_elem_of_further.
  - intros Hr. apply result_bind_Ok in Hr as (l'' & Hl'' & [= <-]).
    rewrite !elem_of_cons. intros [->|Hc]; [now left | right; eauto].
Qed.

(** X13. [get_data] takes the feature names from the train frame: with
    distinct column labels they are all columns but 'label', in the order of
    the frame; when the frame has no 'label' column, [list.remove] raises
    [ValueError]. *)
Theorem feature_names_all_but_label (train_df : DataFrame) :
  NoDup (column_names train_df) ->
  match feature_names train_df with
  | Ok names =>
      Metrics.LABEL_COLUMN ∈ column_names train_df /\
      names = List.filter (fun c => negb (String.eqb c Metrics.LABEL_COLUMN))
                (column_names train_df) /\
      Metrics.LABEL_COLUMN ∉ names
  | Raise ValueError => Metrics.LABEL_COLUMN ∉ column_names train_df
  | _ => False
  end.
Proof.
  intros Hnd. unfold feature_names.
  destruct (decide (Metrics.LABEL_COLUMN ∈ column_names train_df)) as [Hin|Hnin].
  - rewrite list_remove_NoDup by assumption. split; [exact Hin|]. split; [reflexivity|].
    rewrite list_elem_of_In, filter_In. intros [_ Hneq].
    now rewrite String.eqb_refl in Hneq.
  - now rewrite list_remove_absent.
Qed.

Lemma feature_names_all_but_label_witness :
  let train_df :=
    mkDataFrame 1 [("age_0", [1%Q]); ("label", [1%Q]); ("age_1", [0%Q])] in
  match feature_names train_df with
  | Ok names =>
      Metrics.LABEL_COLUMN ∈ column_names train_df /\
      names = ["age_0"; "age_1"] /\
      Metrics.LABEL_COLUMN ∉ names
  | Raise ValueError => Metrics.LABEL_COLUMN ∉ column_names train_df
  | _ => False
  end.
Proof.
  cbv zeta.
  apply (feature_names_all_but_label
           (mkDataFrame 1 [("age_0", [1%Q]); ("label", [1%Q]); ("age_1", [0%Q])])).
  decide_names.
Defined.

(** X14. After a returning call of [fix_columns], the feature names taken
    from the train frame can be selected from both frames without a
    [KeyError], and both selections list the features in the same order. *)
Theorem feature_names_select_both (train test train' test' : DataFrame)
    (names : list string) :
  fix_columns train test = Ok (train', test') ->
  feature_names train' = Ok names ->
  exists features_train features_test,
    getitem_list train' names = Ok features_train /\
    getitem_list test' names = Ok features_test /\
    column_names features_train = names /\
    column_names features_test = names.
Proof.
  intros Hfix Hnames.
  pose proof (PreprocessFacts.fix_columns_same_columns _ _ _ _ Hfix) as Hsame.
  assert (Hsub : forall c, c ∈ names -> c ∈ column_names train').
  { intros c. apply (list_remove_subset _ _ _ _ Hnames). }
  destruct (getitem_list_present train' names) as (ftrain & Htrain & _).
  { apply Forall_forall. exact Hsub. }
  destruct (getitem_list_present test' names) as (ftest & Htest & _).
  { apply Forall_forall. intros c Hc. now apply Hsame, Hsub. }
  exists ftrain, ftest. split; [exact Htrain|]. split; [exact Htest|].
  split; eapply PreprocessFacts.getitem_list_names; eassumption.
Qed.

Lemma feature_names_select_both_witness :
  let train := mkDataFrame 1 [("label", [1%Q]); ("country_H", [1%Q])] in
  let test := mkDataFrame 2 [("country_X", [1%Q; 0%Q]); ("label", [0%Q; 1%Q])] in
  exists train' test' features_train features_test,
    fix_columns train test = Ok (train', test') /\
    getitem_list train' ["country_X"; "country_H"] = Ok features_train /\
    getitem_list test' ["country_X"; "country_H"] = Ok features_test /\
    column_names features_train = ["country_X"; "country_H"] /\
    column_names features_test = ["country_X"; "country_H"].
Proof.
  cbv zeta.
  destruct (feature_names_select_both
              (mkDataFrame 1 [("label", [1%Q]); ("country_H", [1%Q])])
              (mkDataFrame 2 [("country_X", [1%Q; 0%Q]); ("label", [0%Q; 1%Q])])
              _ _ ["country_X"; "country_H"] eq_refl eq_refl)
    as (ftrain & ftest & H1 & H2 & H3 & H4).
  eexists. eexists. exists ftrain, ftest. split; [reflexivity|]. auto.
Defined.

End PreprocessMore.

Module HelperMore.
Import Frame Graph Training Spec Cells.

Lemma prog_bind_Ok {A B} (m : Prog A) (k : A -> Prog B) σ σ' b :
  (m ≫= k) σ = (σ', Ok b) ->
  exists a σ1, m σ = (σ1, Ok a) /\ k a σ1 = (σ', Ok b).
Proof.
  unfold mbind, prog_bind. destruct (m σ) as [σ1 [a| |]]; try discriminate. eauto.
Qed.

Lemma prog_bind_Raise {A B} (m : Prog A) (k : A -> Prog B) σ σ' e :
  m σ = (σ', Raise e) -> (m ≫= k) σ = (σ', Raise e).
Proof. intros Hm. unfold mbind, prog_bind. now rewrite Hm. Qed.

Lemma next_minibatch_returns fuel num_rows minibatch_size :
  0 <= num_rows ->
  (Z.to_nat (Z.min minibatch_size num_rows) <= fuel)%nat ->
  exists st, next_minibatch fuel num_rows (Z.min minibatch_size num_rows) 0 = Ok st.
Proof.
  intros Hn Hfuel. destruct (Z.le_gt_cases (Z.min minibatch_size num_rows) 0) as [Hs|Hs].
  - exists ([], 0). unfold next_minibatch.
    assert (Hcond : while_cond (Z.min minibatch_size num_rows) ([], 0) = false).
    { unfold while_cond. cbn. apply Z.ltb_ge. lia. }
    destruct fuel; cbn [while_loop]; now rewrite Hcond.
  - eexists. apply SamplerFacts.next_minibatch_cyclic; lia.
Qed.

(** *** Feeding a frame *)

Lemma rmapM_ext_in {A B} (f g : A -> Result B) (l : list A) :
  (forall x, x ∈ l -> f x = g x) -> rmapM f l = rmapM g l.
Proof.
  induction l as [|x l IH]; intros E; [reflexivity|].
  cbn. rewrite (E x) by apply list_elem_of_here.
  rewrite IH; [reflexivity|]. intros y Hy. apply E. now apply list_elem_of_further.
Qed.

(** X18. The 'predictions' column that [training_helper] writes is not fed
    back to the model: as long as 'predictions' is not a feature name,
    [feed_dict_helper] extracts the same feed from a frame before and after
    the assignment [df['predictions'] = values]. *)
Theorem feed_ignores_predictions (FEATURE_NAMES : list string) (df df' : DataFrame)
    (values : Column) :
  "predictions" ∉ FEATURE_NAMES ->
  setitem df "predictions" values = Ok df' ->
  feed_dict_helper FEATURE_NAMES df' = feed_dict_helper FEATURE_NAMES df.
Proof.
  intros Hnot Hset. unfold setitem in Hset.
  destruct (Nat.eqb _ _); [|discriminate]. injection Hset as <-.
  assert (Hget : forall c, c <> "predictions" ->
            getitem_col (mkDataFrame (nrows df)
                           (assoc_set "predictions" values (columns df))) c
            = getitem_col df c).
  { intros c Hne. unfold getitem_col. cbn. now rewrite MetricsMore.assoc_get_set_ne. }
  unfold feed_dict_helper, getitem_list. cbn [nrows].
  rewrite (rmapM_ext_in _ (fun c => v ← getitem_col df c; Ok (c, v))).
  - now rewrite !Hget by discriminate.
  - intros c Hc. rewrite Hget; [reflexivity|]. intros ->. contradiction.
Qed.

Lemma feed_ignores_predictions_witness :
  feed_dict_helper ["age_0"]
    (mkDataFrame 3 (columns sample_train ++ [("predictions", [1%Q; 1%Q; 1%Q])]))
  = feed_dict_helper ["age_0"] sample_train.
Proof.
  apply (feed_ignores_predictions ["age_0"] sample_train _ [1%Q; 1%Q; 1%Q]).
  - PreprocessMore.decide_names.
  - reflexivity.
Defined.

(** X19. [feed_dict_helper] needs every feature column, the 'label' column
    and the 'churn_label' column (also for a model trained without the churn
    constraint): it returns exactly when none of them is missing from the
    frame, and otherwise raises [KeyError] for one that is. *)
Theorem feed_needs_all_columns (FEATURE_NAMES : list string) (dataframe : DataFrame) :
  let needed := FEATURE_NAMES ++ [Metrics.LABEL_COLUMN; Metrics.CHURN_COLUMN] in
  match feed_dict_helper FEATURE_NAMES dataframe with
  | Ok feed =>
      Forall (fun c => c ∈ column_names dataframe) needed /\
      column_names (feed_features feed) = FEATURE_NAMES /\
      getitem_col dataframe Metrics.LABEL_COLUMN = Ok (feed_labels feed) /\
      getitem_col dataframe Metrics.CHURN_COLUMN = Ok (feed_churn feed)
  | Raise (KeyError c) => c ∈ needed /\ (c ∉ column_names dataframe)
  | _ => False
  end.
Proof.
  intros needed. unfold feed_dict_helper.
  destruct (decide (Forall (fun c => c ∈ column_names dataframe) FEATURE_NAMES))
    as [Hall|Hnot].
  - destruct (PreprocessMore.getitem_list_present dataframe FEATURE_NAMES Hall)
      as (features & Hfeat & _).
    rewrite Hfeat. cbn.
    destruct (decide (Metrics.LABEL_COLUMN ∈ column_names dataframe)) as [Hl|Hl].
    + destruct (PreprocessMore.getitem_col_present dataframe _ Hl) as [labels Hlab].
      rewrite Hlab. cbn.
      destruct (decide (Metrics.CHURN_COLUMN ∈ column_names dataframe)) as [Hc|Hc].
      * destruct (PreprocessMore.getitem_col_present dataframe _ Hc) as [churn Hch].
        rewrite Hch. cbn. split; [|split; [|split; reflexivity]].
        -- apply Forall_app. split; [exact Hall|]. now repeat constructor.
        -- eapply PreprocessFacts.getitem_list_names. exact Hfeat.
      * rewrite (MetricsMore.getitem_col_absent dataframe _ Hc). cbn.
        split; [|exact Hc]. unfold needed. rewrite elem_of_app. right.
        apply list_elem_of_further, list_elem_of_here.
    + rewrite (MetricsMore.getitem_col_absent dataframe _ Hl). cbn.
      split; [|exact Hl]. unfold needed. rewrite elem_of_app. right.
      apply list_elem_of_here.
  - destruct (PreprocessMore.getitem_list_missing dataframe FEATURE_NAMES Hnot)
      as (c & Hin & Hout & Hraise).
    rewrite Hraise. cbn. split; [|exact Hout].
    unfold needed. rewrite elem_of_app. now left.
Qed.

Section Helper.
Context `{Framework}.
Variable FEATURE_NAMES : list string.
Variable fuel : nat.
Variables train_df test_df : Ref.

Lemma generator_next_inv model num_iterations_per_loop g g' yielded σ σ' :
  generator_next FEATURE_NAMES fuel model train_df test_df num_iterations_per_loop g σ
    = (σ', Ok (yielded, g')) ->
  match gen_loops_left g with
  | O => yielded = None /\ g' = g
  | S loops_left => (exists train test, yielded = Some (train, test)) /\
                    gen_loops_left g' = loops_left
  end.
Proof.
  unfold generator_next. destruct (gen_loops_left g) as [|loops_left].
  - intros [= <- <- <-]. now split.
  - intros Hnext.
    repeat (apply prog_bind_Ok in Hnext as (? & ? & _ & Hnext)).
    injection Hnext as <- <- <-. cbn. eauto.
Qed.

Lemma helper_body_appends model train test acc acc' σ σ' :
  helper_body model train_df test_df train test acc σ = (σ', Ok acc') ->
  length (train_error_rate_vector acc') = S (length (train_error_rate_vector acc)) /\
  length (train_constraints_matrix acc') = S (length (train_constraints_matrix acc)) /\
  length (test_error_rate_vector acc') = S (length (test_error_rate_vector acc)) /\
  length (test_constraints_matrix acc') = S (length (test_constraints_matrix acc)).
Proof.
  unfold helper_body. intros Hbody.
  do 3 (apply prog_bind_Ok in Hbody as (? & ? & _ & Hbody)).
  apply prog_bind_Ok in Hbody as ([e1 c1] & ? & _ & Hbody).
  apply prog_bind_Ok in Hbody as (? & ? & _ & Hbody).
  apply prog_bind_Ok in Hbody as ([e2 c2] & ? & _ & Hbody).
  injection Hbody as <- <-. cbn. rewrite !length_app. cbn. lia.
Qed.

Lemma helper_loop_lengths n model num_iterations_per_loop g acc v σ σ' :
  helper_loop FEATURE_NAMES fuel n model train_df test_df
    num_iterations_per_loop g acc σ = (σ', Ok v) ->
  (gen_loops_left g < n)%nat ->
  length (train_error_rate_vector v)
    = (length (train_error_rate_vector acc) + gen_loops_left g)%nat /\
  length (train_constraints_matrix v)
    = (length (train_constraints_matrix acc) + gen_loops_left g)%nat /\
  length (test_error_rate_vector v)
    = (length (test_error_rate_vector acc) + gen_loops_left g)%nat /\
  length (test_constraints_matrix v)
    = (length (test_constraints_matrix acc) + gen_loops_left g)%nat.
Proof.
  revert g acc σ. induction n as [|n IH]; intros g acc σ Hloop Hlt; [lia|].
  cbn [helper_loop] in Hloop.
  apply prog_bind_Ok in Hloop as ([yielded g'] & σ1 & Hnext & Hloop).
  apply generator_next_inv in Hnext.
  destruct (gen_loops_left g) as [|loops_left].
  - destruct Hnext as [-> ->]. injection Hloop as <- <-. lia.
  - destruct Hnext as [(train & test & ->) Hleft].
    apply prog_bind_Ok in Hloop as (acc' & σ2 & Hbody & Hloop).
    apply helper_body_appends in Hbody as (H1 & H2 & H3 & H4).
    apply IH in Hloop; [|lia]. rewrite Hleft in Hloop. lia.
Qed.

(** X20. When [training_helper] returns, each of the four lists it returns
    has one entry per epoch: their length is [num_loops] (0 for a negative
    [num_loops]). *)
Theorem training_helper_one_entry_per_epoch model minibatch_size
    num_iterations_per_loop num_loops σ σ' vectors :
  training_helper FEATURE_NAMES fuel model train_df test_df
    minibatch_size num_iterations_per_loop num_loops σ = (σ', Ok vectors) ->
  length (train_error_rate_vector vectors) = Z.to_nat num_loops /\
  length (train_constraints_matrix vectors) = Z.to_nat num_loops /\
  length (test_error_rate_vector vectors) = Z.to_nat num_loops /\
  length (test_constraints_matrix vectors) = Z.to_nat num_loops.
Proof.
  unfold training_helper. intros Hrun.
  apply prog_bind_Ok in Hrun as (g & σ1 & Hgen & Hloop).
  apply helper_loop_lengths in Hloop; [|lia].
  unfold training_generator in Hgen.
  apply prog_bind_Ok in Hgen as (df & σ0 & _ & Hgen).
  injection Hgen as <- <-. exact Hloop.
Qed.

(** X21. With [num_loops <= 0] the generator yields nothing:
    [training_helper] returns four empty lists and leaves the store as it
    is. *)
Theorem training_helper_without_loops model minibatch_size
    num_iterations_per_loop num_loops σ :
  num_loops <= 0 ->
  training_helper FEATURE_NAMES fuel model train_df test_df
    minibatch_size num_iterations_per_loop num_loops σ
  = (σ, Ok (mkVectors [] [] [] [])).
Proof.
  intros Hle. unfold training_helper, training_generator, mbind, prog_bind, read, ret.
  cbn. replace (Z.to_nat num_loops) with O by lia. reflexivity.
Qed.

(** X22. Training a model whose [build_train_op] was never called fails in
    the first training iteration with [AttributeError], before any frame is
    written (for [num_loops >= 1] and [num_iterations_per_loop >= 1]). *)
Theorem training_without_train_op model minibatch_size
    num_iterations_per_loop num_loops σ :
  train_op model = None ->
  1 <= num_loops ->
  1 <= num_iterations_per_loop ->
  (Z.to_nat (Z.min minibatch_size (Z.of_nat (nrows (σ train_df)))) <= fuel)%nat ->
  training_helper FEATURE_NAMES fuel model train_df test_df
    minibatch_size num_iterations_per_loop num_loops σ
  = (σ, Raise (AttributeError "train_op")).
Proof.
  intros Hop Hloops Hiters Hfuel.
  destruct (next_minibatch_returns fuel (Z.of_nat (nrows (σ train_df))) minibatch_size)
    as [[idx start] Hmini]; [lia | exact Hfuel |].
  unfold training_helper, training_generator.
  unfold mbind at 1, prog_bind at 1. unfold mbind at 1, prog_bind at 1.
  unfold read at 1, ret at 1. cbn [gen_loops_left].
  destruct (Z.to_nat num_loops) as [|loops_left] eqn:El; [lia|].
  cbn [helper_loop]. apply prog_bind_Raise.
  unfold generator_next. cbn [gen_loops_left].
  destruct (Z.to_nat num_iterations_per_loop) as [|iters] eqn:Ei; [lia|].
  apply prog_bind_Raise. cbn [iterate]. apply prog_bind_Raise.
  unfold training_iteration. cbn [gen_num_rows gen_minibatch_size gen_minibatch_start_index].
  unfold mbind at 1, prog_bind at 1, lift at 1. rewrite Hmini.
  unfold mbind at 1, prog_bind at 1, lift at 1. rewrite Hop. reflexivity.
Qed.

(** *** The start index across epochs *)

Lemma iterate_start_index model j g g' σ σ' :
  iterate j (training_iteration FEATURE_NAMES fuel model train_df) g σ = (σ', Ok g') ->
  0 <= gen_minibatch_start_index g < gen_num_rows g ->
  0 <= gen_minibatch_size g ->
  (Z.to_nat (gen_minibatch_size g) <= fuel)%nat ->
  gen_minibatch_start_index g'
    = (gen_minibatch_start_index g + Z.of_nat j * gen_minibatch_size g)
      mod gen_num_rows g /\
  gen_num_rows g' = gen_num_rows g /\
  gen_minibatch_size g' = gen_minibatch_size g.
Proof.
  revert g σ. induction j as [|j IH]; intros g σ Hiter Hstart Hs Hfuel.
  - injection Hiter as <- <-. rewrite Z.mul_0_l, Z.add_0_r, Z.mod_small by lia. auto.
  - cbn [iterate] in Hiter. apply prog_bind_Ok in Hiter as (g1 & σ1 & Hstep & Hiter).
    apply HelperFacts.training_iteration_sampler in Hstep
      as (idx & Hmini & Hrows & Hsize & _).
    rewrite SamplerFacts.next_minibatch_cyclic in Hmini by assumption.
    injection Hmini as _ Hstart1.
    apply IH in Hiter as (Hidx & Hrows' & Hsize').
    + rewrite Hidx, Hrows', Hsize', Hrows, Hsize, <- Hstart1.
      split; [|auto]. rewrite Zplus_mod_idemp_l. f_equal. lia.
    + rewrite Hrows, <- Hstart1. apply Z.mod_pos_bound. lia.
    + now rewrite Hsize.
    + now rewrite Hsize.
Qed.

(** X23. The start index is not reset between epochs: when the generator
    yields, its start index has advanced by [num_iterations_per_loop] times
    the minibatch size, modulo the number of rows, and one epoch fewer is
    left to run. *)
Theorem start_index_carries_over model num_iterations_per_loop g g' yielded σ σ' :
  generator_next FEATURE_NAMES fuel model train_df test_df num_iterations_per_loop g σ
    = (σ', Ok (Some yielded, g')) ->
  0 <= gen_minibatch_start_index g < gen_num_rows g ->
  0 <= gen_minibatch_size g ->
  (Z.to_nat (gen_minibatch_size g) <= fuel)%nat ->
  gen_minibatch_start_index g'
    = (gen_minibatch_start_index g
       + Z.of_nat (Z.to_nat num_iterations_per_loop) * gen_minibatch_size g)
      mod gen_num_rows g /\
  gen_loops_left g = S (gen_loops_left g').
Proof.
  unfold generator_next. destruct (gen_loops_left g) as [|loops_left]; [discriminate|].
  intros Hnext Hstart Hs Hfuel.
  apply prog_bind_Ok in Hnext as (g1 & σ1 & Hiter & Hnext).
  apply iterate_start_index in Hiter as (Hidx & _ & _); try assumption.
  repeat (apply prog_bind_Ok in Hnext as (? & ? & _ & Hnext)).
  injection Hnext as <- <- <-. cbn. now rewrite Hidx.
Qed.

(** X24. The generator only reads the shared frames: neither starting it
    nor resuming it changes the store, whatever the outcome. *)
Theorem generator_never_writes model minibatch_size num_iterations_per_loop num_loops
    g σ :
  (training_generator train_df minibatch_size num_loops σ).1 = σ /\
  (generator_next FEATURE_NAMES fuel model train_df test_df
     num_iterations_per_loop g σ).1 = σ.
Proof.
  split.
  - apply HelperFacts.training_generator_read_only.
  - apply HelperFacts.generator_next_read_only.
Qed.

End Helper.

Lemma training_without_train_op_witness :
  @training_helper constant_scores ["age_0"] 2
    (Model_init ["age_0"] None (1#40)) 0%nat 1%nat 2 326 100 sample_store
  = (sample_store, Raise (AttributeError "train_op")).
Proof.
  apply (@training_without_train_op constant_scores ["age_0"] 2 0%nat 1%nat
           (Model_init ["age_0"] None (1#40)) 2 326 100 sample_store);
    try reflexivity; simpl; lia.
Defined.

Lemma start_index_carries_over_witness :
  exists σ' yielded g',
    @generator_next constant_scores ["age_0"] 2 sample_model 0%nat 1%nat 2
      (@mkGenerator constant_scores 3 2 [2; 1; 0] tt 1 2) sample_store
    = (σ', Ok (Some yielded, g')) /\
    gen_minibatch_start_index g' = 2 /\
    gen_loops_left g' = 1%nat.
Proof.
  destruct (@generator_next constant_scores ["age_0"] 2 sample_model 0%nat 1%nat 2
              (@mkGenerator constant_scores 3 2 [2; 1; 0] tt 1 2) sample_store)
    as [σ' [[[yielded|] g']| |]] eqn:Hnext;
    try (vm_compute in Hnext; discriminate Hnext).
  exists σ', yielded, g'. split; [reflexivity|].
  destruct (@start_index_carries_over constant_scores ["age_0"] 2 0%nat 1%nat
              sample_model 2 _ g' yielded sample_store σ' Hnext)
    as [Hidx Hleft]; [simpl; lia | simpl; lia | simpl; lia |].
  split; [exact Hidx|]. cbn in Hleft. now injection Hleft.
Defined.

Lemma training_helper_without_loops_witness :
  @training_helper constant_scores ["age_0"] 0 sample_model 0%nat 1%nat 2 326 0
    sample_store
  = (sample_store, Ok (mkVectors [] [] [] [])).
Proof.
  apply (@training_helper_without_loops constant_scores ["age_0"] 0 0%nat 1%nat
           sample_model 2 326 0 sample_store). lia.
Defined.

Lemma training_helper_one_entry_per_epoch_witness :
  exists σ' vectors,
    @training_helper constant_scores ["age_0"] 2 sample_model 0%nat 1%nat 2 2 3
      sample_store = (σ', Ok vectors) /\
    length (train_error_rate_vector vectors) = 3%nat /\
    length (test_constraints_matrix vectors) = 3%nat.
Proof.
  destruct (@training_helper constant_scores ["age_0"] 2 sample_model 0%nat 1%nat
              2 2 3 sample_store) as [σ' [vectors| |]] eqn:Hrun;
    try (vm_compute in Hrun; discriminate Hrun).
  exists σ', vectors. split; [reflexivity|].
  destruct (@training_helper_one_entry_per_epoch constant_scores ["age_0"] 2
              0%nat 1%nat sample_model 2 2 3 sample_store σ' vectors Hrun)
    as (H1 & _ & _ & H4).
  split; assumption.
Defined.

End HelperMore.

Module GeneratorFacts.
Import Frame Graph Training Spec Cells Reference.

Lemma cyclic_window_permutation n a :
  0 < n -> cyclic n a (Z.to_nat n) ≡ₚ range 0 n.
Proof.
  intros Hn. rewrite <- SamplerFacts.cyclic_mod.
  pose proof (Z.mod_pos_bound a n Hn) as Hr. set (r := a mod n) in *.
  replace (Z.to_nat n) with (Z.to_nat (n - r) + Z.to_nat r)%nat by lia.
  rewrite SamplerFacts.cyclic_app.
  replace ((r + Z.of_nat (Z.to_nat (n - r))) mod n) with 0
    by (replace (r + Z.of_nat (Z.to_nat (n - r))) with n by lia;
        now rewrite Z_mod_same_full).
  rewrite <- (SamplerFacts.range_cyclic n r (Z.to_nat (n - r))) by lia.
  rewrite <- (SamplerFacts.range_cyclic n 0 (Z.to_nat r)) by lia.
  rewrite Permutation_app_comm. unfold range.
  replace (0 + Z.of_nat (Z.to_nat r) - 0) with r by lia.
  replace (r + Z.of_nat (Z.to_nat (n - r)) - r) with (n - r) by lia.
  replace (n - 0) with (r + (n - r)) by lia.
  rewrite seqZ_app by lia. now rewrite Z.add_0_l.
Qed.

(** The positions of a run of consecutive iterations, put end to end. *)
Lemma concat_cyclic n s j k :
  concat (map (fun i : nat => cyclic n (Z.of_nat i * s) (Z.to_nat s)) (seq j k))
  = cyclic n (Z.of_nat j * s) (k * Z.to_nat s).
Proof.
  destruct (Z.le_gt_cases s 0) as [Hs|Hs].
  { replace (Z.to_nat s) with O by lia. rewrite Nat.mul_0_r.
    revert j. induction k as [|k IH]; intros j; [reflexivity|].
    cbn [seq map concat]. rewrite IH. reflexivity. }
  revert j. induction k as [|k IH]; intros j; [reflexivity|].
  cbn [seq map concat]. rewrite IH.
  replace (S k * Z.to_nat s)%nat with (Z.to_nat s + k * Z.to_nat s)%nat by lia.
  rewrite SamplerFacts.cyclic_app, SamplerFacts.cyclic_mod. do 2 f_equal. lia.
Qed.

Lemma map_const_seq {A} (x : A) j k : map (fun _ : nat => x) (seq j k) = replicate k x.
Proof. revert j. induction k as [|k IH]; intros j; cbn; [|rewrite IH]; reflexivity. Qed.

(** One training iteration is the sampler followed by one training step. *)
Ltac training_iteration_equation :=
  intros;
  unfold training_iteration, feed_positions, mbind, prog_bind, result_bind,
    lift, read, ret;
  destruct (next_minibatch _ _ _ _) as [[? ?]| |]; try reflexivity;
  destruct (train_op _); try reflexivity;
  destruct (rmapM _ _); try reflexivity;
  destruct (iloc _ _); try reflexivity;
  destruct (feed_dict_helper _ _); try reflexivity;
  destruct (run_train_op _ _ _); reflexivity.

(** The code of the generator before its loops. *)
Ltac training_generator_equation :=
  unfold training_generator, mbind, prog_bind, read, ret; cbv beta iota zeta.

Section Generator.
Context `{Framework}.
Variable FEATURE_NAMES : list string.
Variable fuel : nat.
Variables train_df test_df : Ref.

(** Iterating a step that runs the sampler and then one training step. *)
Section Steps.
Variable step : Generator -> Prog Generator.
Variable model : Model.
Variable σ : Store.
Hypothesis step_equation : forall g,
  step g σ
  = (σ,
     '(minibatch_indices, minibatch_start_index) ←
       next_minibatch fuel (gen_num_rows g) (gen_minibatch_size g)
         (gen_minibatch_start_index g);
     session ← feed_positions FEATURE_NAMES model (gen_permutation g) (σ train_df)
                 (gen_session g) minibatch_indices;
     Ok (mkGenerator (gen_num_rows g) (gen_minibatch_size g) (gen_permutation g)
           session minibatch_start_index (gen_loops_left g))).

(** [k] iterations from iteration number [j] on. *)
Lemma iterate_feed_all k j g :
  0 < gen_num_rows g ->
  0 <= gen_minibatch_size g ->
  (Z.to_nat (gen_minibatch_size g) <= fuel)%nat ->
  gen_minibatch_start_index g
    = (Z.of_nat j * gen_minibatch_size g) mod gen_num_rows g ->
  iterate k step g σ
  = (σ,
     session ← feed_all FEATURE_NAMES model (gen_permutation g) (σ train_df)
                 (map (fun i : nat =>
                         cyclic (gen_num_rows g) (Z.of_nat i * gen_minibatch_size g)
                           (Z.to_nat (gen_minibatch_size g)))
                      (seq j k))
                 (gen_session g);
     Ok (mkGenerator (gen_num_rows g) (gen_minibatch_size g) (gen_permutation g)
           session
           ((Z.of_nat (j + k) * gen_minibatch_size g) mod gen_num_rows g)
           (gen_loops_left g))).
Proof.
  revert j g. induction k as [|k IH]; intros j g Hn Hs Hfuel Hstart.
  - cbn. rewrite Nat.add_0_r, <- Hstart. now destruct g.
  - replace (j + S k)%nat with (S j + k)%nat by lia.
    cbn [iterate seq map feed_all]. unfold mbind at 1, prog_bind at 1.
    rewrite step_equation, Hstart.
    rewrite SamplerFacts.next_minibatch_cyclic
      by (try apply Z.mod_pos_bound; assumption).
    rewrite SamplerFacts.cyclic_mod, Zplus_mod_idemp_l.
    unfold mbind at 1, result_bind at 1. cbv beta iota.
    destruct (feed_positions _ _ _ _ _ _) as [session| |]; cbn; try reflexivity.
    rewrite (IH (S j)); cbn [gen_num_rows gen_minibatch_size gen_permutation
      gen_session gen_minibatch_start_index gen_loops_left]; try assumption.
    + reflexivity.
    + f_equal. lia.
Qed.

(** Without rows to draw the sampler gathers nothing. *)
Lemma iterate_degenerate k g :
  gen_minibatch_size g <= 0 ->
  iterate k step g σ
  = (σ,
     session ← feed_all FEATURE_NAMES model (gen_permutation g) (σ train_df)
                 (replicate k []) (gen_session g);
     Ok (mkGenerator (gen_num_rows g) (gen_minibatch_size g) (gen_permutation g)
           session (gen_minibatch_start_index g) (gen_loops_left g))).
Proof.
  revert g. induction k as [|k IH]; intros g Hs.
  - cbn. now destruct g.
  - cbn [iterate replicate feed_all]. unfold mbind at 1, prog_bind at 1.
    rewrite step_equation.
    assert (Hmini : next_minibatch fuel (gen_num_rows g) (gen_minibatch_size g)
                      (gen_minibatch_start_index g)
                    = Ok ([], gen_minibatch_start_index g)).
    { assert (Hcond : while_cond (gen_minibatch_size g)
                        ([], gen_minibatch_start_index g) = false).
      { unfold while_cond. cbn. apply Z.ltb_ge. lia. }
      unfold next_minibatch. destruct fuel; cbn [while_loop]; now rewrite Hcond. }
    rewrite Hmini. unfold mbind at 1, result_bind at 1. cbv beta iota.
    destruct (feed_positions _ _ _ _ _ _) as [session| |]; cbn; try reflexivity.
    now rewrite IH.
Qed.

End Steps.

(** C5. On a train frame of [num_rows >= 1] rows and for a requested
    [minibatch_size >= 1], the sampler of [training_generator] is cyclic.
    Minibatch [j] of a cyclic sampler holds the
    [min(minibatch_size, num_rows)] consecutive positions from
    [j * min(minibatch_size, num_rows)] on, going back to position 0 after
    position [num_rows - 1].  The first [k] training iterations of the
    generator run the training step on exactly the minibatches [0 .. k - 1],
    each position being looked up in the shuffled permutation, and leave the
    start index advanced by the minibatch size for each iteration, modulo
    [num_rows]; every minibatch has exactly [min(minibatch_size, num_rows)]
    valid positions; and an epoch that the generator starts at training
    iteration [j] runs the minibatches [j .. j + num_iterations_per_loop - 1]
    and hands the start index on to the next epoch. *)
Theorem training_iterations_cyclic model minibatch_size num_iterations_per_loop
    num_loops k σ :
  let num_rows := Z.of_nat (nrows (σ train_df)) in
  let s := Z.min minibatch_size num_rows in
  let permutation := shuffle (range 0 num_rows) in
  let batches := map (minibatch_positions num_rows minibatch_size) (seq 0 k) in
  1 <= num_rows ->
  1 <= minibatch_size ->
  (Z.to_nat s <= fuel)%nat ->
  (training_generator train_df minibatch_size num_loops
     ≫= iterate k (training_iteration FEATURE_NAMES fuel model train_df)) σ
  = (σ,
     session ← feed_all FEATURE_NAMES model permutation (σ train_df) batches new_session;
     Ok (mkGenerator num_rows s permutation session
           ((Z.of_nat k * s) mod num_rows) (Z.to_nat num_loops))) /\
  Forall (fun positions =>
            length positions = Z.to_nat s /\
            Forall (fun i => 0 <= i < num_rows) positions) batches /\
  (forall j g g' yielded σ',
     gen_num_rows g = num_rows ->
     gen_minibatch_size g = s ->
     gen_minibatch_start_index g = (Z.of_nat j * s) mod num_rows ->
     generator_next FEATURE_NAMES fuel model train_df test_df
       num_iterations_per_loop g σ = (σ', Ok (Some yielded, g')) ->
     feed_all FEATURE_NAMES model (gen_permutation g) (σ train_df)
       (map (minibatch_positions num_rows minibatch_size)
          (seq j (Z.to_nat num_iterations_per_loop)))
       (gen_session g)
     = Ok (gen_session g') /\
     gen_minibatch_start_index g'
     = (Z.of_nat (j + Z.to_nat num_iterations_per_loop) * s) mod num_rows).
Proof.
  intros num_rows s permutation batches Hn Hm Hfuel.
  assert (Hiter : forall i j g,
    gen_num_rows g = num_rows ->
    gen_minibatch_size g = s ->
    gen_minibatch_start_index g = (Z.of_nat j * s) mod num_rows ->
    iterate i (training_iteration FEATURE_NAMES fuel model train_df) g σ
    = (σ,
       session ← feed_all FEATURE_NAMES model (gen_permutation g) (σ train_df)
                   (map (minibatch_positions num_rows minibatch_size) (seq j i))
                   (gen_session g);
       Ok (mkGenerator num_rows s (gen_permutation g) session
             ((Z.of_nat (j + i) * s) mod num_rows) (gen_loops_left g)))).
  { intros i j g Hrows Hsize Hstart.
    rewrite (iterate_feed_all (training_iteration FEATURE_NAMES fuel model train_df)
               model σ) with (j := j);
      [| training_iteration_equation | rewrite ?Hrows, ?Hsize; lia ..
       | now rewrite Hrows, Hsize].
    now rewrite Hrows, Hsize. }
  split; [|split].
  - unfold mbind at 1, prog_bind at 1. training_generator_equation.
    fold num_rows. fold s. fold permutation.
    rewrite (Hiter k 0%nat);
      cbn [gen_num_rows gen_minibatch_size gen_permutation gen_session
           gen_minibatch_start_index gen_loops_left]; reflexivity.
  - apply Forall_forall. intros positions Hin.
    apply list_elem_of_In, in_map_iff in Hin as (j & <- & _).
    unfold minibatch_positions. split.
    + apply SamplerFacts.length_cyclic.
    + apply SamplerFacts.cyclic_in_range. lia.
  - intros j g g' yielded σ' Hrows Hsize Hstart. unfold generator_next.
    destruct (gen_loops_left g) as [|loops_left]; [discriminate|]. intros Hnext.
    apply HelperMore.prog_bind_Ok in Hnext as (g1 & σ1 & Hrun & Hnext).
    rewrite (Hiter _ j g Hrows Hsize Hstart) in Hrun.
    destruct (feed_all _ _ _ _ _ _) as [session| |]; cbn in Hrun; try discriminate.
    injection Hrun as <- <-.
    repeat (apply HelperMore.prog_bind_Ok in Hnext as (? & ? & _ & Hnext)).
    injection Hnext as <- <- <-. split; reflexivity.
Qed.

(** X15. When the requested minibatch size is at least the number of rows
    ([num_rows >= 1]), every training iteration of the generator runs the
    training step on all positions [0 .. num_rows - 1] in order, and the
    start index stays at 0 (full-batch training). *)
Theorem full_batch_when_size_exceeds_rows model minibatch_size num_loops k σ :
  let num_rows := Z.of_nat (nrows (σ train_df)) in
  let permutation := shuffle (range 0 num_rows) in
  1 <= num_rows ->
  num_rows <= minibatch_size ->
  (Z.to_nat num_rows <= fuel)%nat ->
  (training_generator train_df minibatch_size num_loops
     ≫= iterate k (training_iteration FEATURE_NAMES fuel model train_df)) σ
  = (σ,
     session ← feed_all FEATURE_NAMES model permutation (σ train_df)
                 (replicate k (range 0 num_rows)) new_session;
     Ok (mkGenerator num_rows num_rows permutation session 0 (Z.to_nat num_loops))).
Proof.
  intros num_rows permutation Hn Hm Hfuel.
  assert (Hbatches : map (minibatch_positions num_rows minibatch_size) (seq 0 k)
                     = replicate k (range 0 num_rows)).
  { rewrite <- (map_const_seq (range 0 num_rows) 0 k). apply map_ext. intros j.
    unfold minibatch_positions. rewrite Z.min_r by lia.
    rewrite <- SamplerFacts.cyclic_mod, Z_mod_mult.
    rewrite <- (SamplerFacts.range_cyclic num_rows 0 (Z.to_nat num_rows)) by lia.
    f_equal. lia. }
  unfold mbind at 1, prog_bind at 1. training_generator_equation.
  fold num_rows. fold permutation.
  rewrite (iterate_feed_all (training_iteration FEATURE_NAMES fuel model train_df)
             model σ) with (j := 0%nat);
    cbn [gen_num_rows gen_minibatch_size gen_permutation gen_session
         gen_minibatch_start_index gen_loops_left];
    [| training_iteration_equation | lia .. | now rewrite Z.mod_0_l by lia].
  unfold minibatch_positions in Hbatches. rewrite Hbatches, Z.min_r by lia.
  now rewrite Z_mod_mult.
Qed.

(** X16. On a train frame without rows, or for a requested minibatch size of
    0 or less, the inner [while] loop of the generator is never entered:
    whatever bound is put on the loop, every training iteration runs the
    training step on the empty minibatch and the start index stays at 0. *)
Theorem empty_minibatch_on_degenerate_sizes model minibatch_size num_loops k σ :
  let num_rows := Z.of_nat (nrows (σ train_df)) in
  let permutation := shuffle (range 0 num_rows) in
  num_rows = 0 \/ minibatch_size <= 0 ->
  (training_generator train_df minibatch_size num_loops
     ≫= iterate k (training_iteration FEATURE_NAMES fuel model train_df)) σ
  = (σ,
     session ← feed_all FEATURE_NAMES model permutation (σ train_df)
                 (replicate k []) new_session;
     Ok (mkGenerator num_rows (Z.min minibatch_size num_rows) permutation session 0
           (Z.to_nat num_loops))).
Proof.
  intros num_rows permutation Hdeg.
  unfold mbind at 1, prog_bind at 1. training_generator_equation.
  rewrite (iterate_degenerate (training_iteration FEATURE_NAMES fuel model train_df)
             model σ); [reflexivity | training_iteration_equation |]. cbn. lia.
Qed.

(** X17. The sampler of the generator neither skips nor repeats positions:
    the first [k] training iterations run the training step on minibatches
    which, put end to end, hold each position [0 .. num_rows - 1] exactly
    once in every run of [num_rows] consecutive draws. *)
Theorem every_window_covers_all_rows model minibatch_size num_loops k σ :
  let num_rows := Z.of_nat (nrows (σ train_df)) in
  let s := Z.min minibatch_size num_rows in
  let permutation := shuffle (range 0 num_rows) in
  1 <= num_rows ->
  1 <= minibatch_size ->
  (Z.to_nat s <= fuel)%nat ->
  exists batches,
    (training_generator train_df minibatch_size num_loops
       ≫= iterate k (training_iteration FEATURE_NAMES fuel model train_df)) σ
    = (σ,
       session ← feed_all FEATURE_NAMES model permutation (σ train_df) batches
                   new_session;
       Ok (mkGenerator num_rows s permutation session
             ((Z.of_nat k * s) mod num_rows) (Z.to_nat num_loops))) /\
    length batches = k /\
    length (concat batches) = (k * Z.to_nat s)%nat /\
    forall j, (j + Z.to_nat num_rows <= k * Z.to_nat s)%nat ->
              take (Z.to_nat num_rows) (drop j (concat batches)) ≡ₚ range 0 num_rows.
Proof.
  intros num_rows s permutation Hn Hm Hfuel.
  exists (map (minibatch_positions num_rows minibatch_size) (seq 0 k)).
  split.
  { unfold mbind at 1, prog_bind at 1. training_generator_equation.
    fold num_rows. fold s. fold permutation.
    rewrite (iterate_feed_all (training_iteration FEATURE_NAMES fuel model train_df)
               model σ) with (j := 0%nat);
      cbn [gen_num_rows gen_minibatch_size gen_permutation gen_session
           gen_minibatch_start_index gen_loops_left];
      [reflexivity | training_iteration_equation | lia ..
       | now rewrite Z.mod_0_l by lia]. }
  split; [now rewrite length_map, length_seq|].
  unfold minibatch_positions. fold s. rewrite concat_cyclic.
  split; [apply SamplerFacts.length_cyclic|].
  intros j Hwin.
  replace (k * Z.to_nat s)%nat
    with (j + (Z.to_nat num_rows + (k * Z.to_nat s - j - Z.to_nat num_rows)))%nat by lia.
  rewrite SamplerFacts.cyclic_app, drop_app_length'
    by (symmetry; apply SamplerFacts.length_cyclic).
  rewrite SamplerFacts.cyclic_app, take_app_length'
    by (symmetry; apply SamplerFacts.length_cyclic).
  apply cyclic_window_permutation. lia.
Qed.

(** *** The loop of [training_helper] *)

Lemma assign_predictions_Ok r values σ σ1 u :
  assign_predictions r values σ = (σ1, Ok u) ->
  length values = nrows (σ r) /\
  exists df, nrows df = nrows (σ r) /\ σ1 = update σ r df.
Proof.
  unfold assign_predictions, mbind, prog_bind, read, lift, write.
  destruct (setitem (σ r) "predictions" values) as [df| |] eqn:Hset; try discriminate.
  intros [= <- _]. unfold setitem in Hset.
  destruct (Nat.eqb_spec (length values) (nrows (σ r))); [|discriminate].
  injection Hset as <-. split; [assumption|]. eexists. split; [|reflexivity]. reflexivity.
Qed.

Lemma helper_body_Ok_written model train test acc acc' σ σ1 :
  helper_body model train_df test_df train test acc σ = (σ1, Ok acc') ->
  predictions_written train_df test_df train test σ σ1.
Proof.
  intros Hbody.
  assert (Hlen : length train = nrows (σ train_df) /\ length test = nrows (σ test_df)).
  { unfold helper_body in Hbody.
    apply HelperMore.prog_bind_Ok in Hbody as (u1 & σa & Ha & Hbody).
    apply HelperMore.prog_bind_Ok in Hbody as (u2 & σb & Hb & _).
    apply assign_predictions_Ok in Ha as (Htrain & df1 & Hrows & ->).
    apply assign_predictions_Ok in Hb as (Htest & _).
    split; [exact Htrain|]. rewrite Htest. unfold update.
    destruct (Nat.eqb_spec test_df train_df) as [->|_]; [exact Hrows | reflexivity]. }
  destruct Hlen as [Htrain Htest].
  pose proof (HelperFacts.helper_body_writes train_df test_df model train test acc σ
                Htrain Htest) as Hw.
  pose proof (HelperFacts.helper_body_preserves train_df test_df model train test acc σ)
    as Hf.
  cbv zeta in Hw. rewrite Hbody in Hw, Hf. cbn [fst] in Hw, Hf.
  destruct Hw as [Hw1 Hw2]. split; [exact Hw1 | split; [exact Hw2 | exact Hf]].
Qed.

(** C8. [training_helper] mutates the two frames it is given in place.
    Whatever the outcome of a run, each frame of the store keeps its rows and
    all its columns other than ['predictions'], and the frames other than
    [train_df] and [test_df] are untouched.  The run consists of loop
    iterations in each of which the generator is resumed and the predictions
    it yields are written to the ['predictions'] column of both frames; a run
    that returns went through [num_loops] such iterations and ends in the
    store the last of them left. *)
Theorem training_helper_writes_predictions model minibatch_size
    num_iterations_per_loop num_loops σ :
  let run := training_helper FEATURE_NAMES fuel model train_df test_df
               minibatch_size num_iterations_per_loop num_loops σ in
  (forall r, nrows (run.1 r) = nrows (σ r) /\
             other_columns (run.1 r) = other_columns (σ r)) /\
  (forall r, r <> train_df -> r <> test_df -> run.1 r = σ r) /\
  exists g e σe,
    training_generator train_df minibatch_size num_loops σ = (σ, Ok g) /\
    (e <= Z.to_nat num_loops)%nat /\
    epochs_written FEATURE_NAMES fuel train_df test_df model num_iterations_per_loop
      g σ e σe /\
    framed train_df test_df σe run.1 /\
    (forall vectors, run.2 = Ok vectors -> e = Z.to_nat num_loops /\ run.1 = σe).
Proof.
  intros run.
  destruct (HelperFacts.training_helper_frame FEATURE_NAMES fuel train_df test_df
              model minibatch_size num_iterations_per_loop num_loops σ)
    as (Hsame & Hother & _).
  split; [exact Hsame|]. split; [exact Hother|].
  (* the loop: resume the generator, write what it yields, go on *)
  assert (Hloop : forall n g acc σ0,
    (gen_loops_left g < n)%nat ->
    exists e σe,
      (e <= gen_loops_left g)%nat /\
      epochs_written FEATURE_NAMES fuel train_df test_df model num_iterations_per_loop
        g σ0 e σe /\
      framed train_df test_df σe
        (helper_loop FEATURE_NAMES fuel n model train_df test_df
           num_iterations_per_loop g acc σ0).1 /\
      (forall vectors,
         (helper_loop FEATURE_NAMES fuel n model train_df test_df
            num_iterations_per_loop g acc σ0).2 = Ok vectors ->
         e = gen_loops_left g /\
         (helper_loop FEATURE_NAMES fuel n model train_df test_df
            num_iterations_per_loop g acc σ0).1 = σe)).
  { induction n as [|n IH]; intros g acc σ0 Hlt; [lia|].
    assert (Hturn :
      helper_loop FEATURE_NAMES fuel (S n) model train_df test_df
        num_iterations_per_loop g acc σ0
      = match generator_next FEATURE_NAMES fuel model train_df test_df
                num_iterations_per_loop g σ0 with
        | (σ1, Ok (Some (train, test), g')) =>
            match helper_body model train_df test_df train test acc σ1 with
            | (σ2, Ok acc') =>
                helper_loop FEATURE_NAMES fuel n model train_df test_df
                  num_iterations_per_loop g' acc' σ2
            | (σ2, Raise e) => (σ2, Raise e)
            | (σ2, OutOfFuel) => (σ2, OutOfFuel)
            end
        | (σ1, Ok (None, _)) => (σ1, Ok acc)
        | (σ1, Raise e) => (σ1, Raise e)
        | (σ1, OutOfFuel) => (σ1, OutOfFuel)
        end).
    { cbn [helper_loop]. unfold mbind at 1, prog_bind at 1.
      destruct (generator_next _ _ _ _ _ _ _ _) as [σ1 [[[[train test]|] g']| |]];
        reflexivity. }
    rewrite Hturn. clear Hturn.
    pose proof (HelperFacts.generator_next_read_only FEATURE_NAMES fuel train_df test_df
                  model num_iterations_per_loop g σ0) as Hro.
    destruct (generator_next FEATURE_NAMES fuel model train_df test_df
                num_iterations_per_loop g σ0) as [σ1 [[yielded g']| |]] eqn:Hnext;
      cbn [fst] in Hro; subst σ1;
      try (exists O, σ0; cbn; split; [lia|]; split; [constructor|];
           split; [apply HelperFacts.framed_refl | discriminate]).
    pose proof (HelperMore.generator_next_inv FEATURE_NAMES fuel train_df test_df
                  _ _ _ _ _ _ _ Hnext) as Hinv.
    destruct (gen_loops_left g) as [|loops_left] eqn:Hleft.
    - destruct Hinv as [-> ->]. exists O, σ0. cbn.
      split; [lia|]. split; [constructor|].
      split; [apply HelperFacts.framed_refl | auto].
    - destruct Hinv as [(train & test & ->) Hleft'].
      pose proof (HelperFacts.helper_body_preserves train_df test_df model
                    train test acc σ0) as Hf.
      destruct (helper_body model train_df test_df train test acc σ0)
        as [σ1 [acc'| |]] eqn:Hbody; cbn [fst] in Hf;
        try (exists O, σ0; cbn; split; [lia|]; split; [constructor|];
             split; [exact Hf | discriminate]).
      destruct (IH g' acc' σ1) as (e & σe & Hle & Hep & Hfr & Hok); [lia|].
      exists (S e), σe. split; [lia|]. split; [|split; [exact Hfr|]].
      + econstructor; [exact Hnext | | exact Hep].
        eapply helper_body_Ok_written. exact Hbody.
      + intros vectors Hv. destruct (Hok vectors Hv) as [-> Heq].
        split; [now rewrite Hleft' | exact Heq]. }
  set (g := mkGenerator (Z.of_nat (nrows (σ train_df)))
              (Z.min minibatch_size (Z.of_nat (nrows (σ train_df))))
              (shuffle (range 0 (Z.of_nat (nrows (σ train_df)))))
              new_session 0 (Z.to_nat num_loops)).
  assert (Hstart : training_generator train_df minibatch_size num_loops σ = (σ, Ok g))
    by reflexivity.
  assert (Hrun : run = helper_loop FEATURE_NAMES fuel (S (Z.to_nat num_loops)) model
                         train_df test_df num_iterations_per_loop g
                         (mkVectors [] [] [] []) σ).
  { subst run. unfold training_helper. unfold mbind at 1, prog_bind at 1.
    now rewrite Hstart. }
  rewrite Hrun. exists g.
  destruct (Hloop (S (Z.to_nat num_loops)) g (mkVectors [] [] [] []) σ)
    as (e & σe & Hle & Hep & Hfr & Hok).
  { cbn. lia. }
  exists e, σe. split; [exact Hstart|].
  split; [exact Hle|]. split; [exact Hep|]. split; [exact Hfr | exact Hok].
Qed.

End Generator.

(** *** Sample runs

    The loops of the notebook on the sample frames, with the stand-in that
    logs the feeds: each instance of a theorem comes with the value the run
    evaluates to. *)

Lemma training_iterations_cyclic_witness :
  (@training_generator logged_feeds 0%nat 2 2
     ≫= iterate 2 (@training_iteration logged_feeds ["age_0"] 2 sample_model 0%nat))
    sample_store
  = (sample_store,
     session ← @feed_all logged_feeds ["age_0"] sample_model [2; 1; 0] sample_train
                 [[0; 1]; [2; 0]] [];
     Ok (@mkGenerator logged_feeds 3 2 [2; 1; 0] session 1 2)) /\
  (@training_generator logged_feeds 0%nat 2 2
     ≫= iterate 2 (@training_iteration logged_feeds ["age_0"] 2 sample_model 0%nat))
    sample_store
  = (sample_store,
     Ok (@mkGenerator logged_feeds 3 2 [2; 1; 0]
           [mkFeed (mkDataFrame 2 [("age_0", [1%Q; 0%Q])]) [1%Q; 0%Q] [(-1)%Q; (-2)%Q];
            mkFeed (mkDataFrame 2 [("age_0", [1%Q; 1%Q])]) [1%Q; 1%Q] [1%Q; (-1)%Q]]
           1 2)) /\
  Forall (fun positions =>
            length positions = 2%nat /\ Forall (fun i => 0 <= i < 3) positions)
    [[0; 1]; [2; 0]] /\
  exists yielded g' σ',
    @generator_next logged_feeds ["age_0"] 2 sample_model 0%nat 1%nat 2
      (@mkGenerator logged_feeds 3 2 [2; 1; 0] [] 1 2) sample_store
    = (σ', Ok (Some yielded, g')) /\
    @feed_all logged_feeds ["age_0"] sample_model [2; 1; 0] sample_train
      [[1; 2]; [0; 1]] [] = Ok (gen_session g') /\
    gen_session g'
    = [mkFeed (mkDataFrame 2 [("age_0", [0%Q; 1%Q])]) [0%Q; 1%Q] [(-2)%Q; 1%Q];
       mkFeed (mkDataFrame 2 [("age_0", [1%Q; 0%Q])]) [1%Q; 0%Q] [(-1)%Q; (-2)%Q]] /\
    gen_minibatch_start_index g' = 2.
Proof.
  destruct (@training_iterations_cyclic logged_feeds ["age_0"] 2 0%nat 1%nat
              sample_model 2 2 2 2 sample_store) as (Hrun & Hall & Hepoch);
    [simpl; lia | simpl; lia | simpl; lia |].
  split; [exact Hrun|]. split; [vm_compute; reflexivity|]. split; [exact Hall|].
  destruct (@generator_next logged_feeds ["age_0"] 2 sample_model 0%nat 1%nat 2
              (@mkGenerator logged_feeds 3 2 [2; 1; 0] [] 1 2) sample_store)
    as [σ' [[[yielded|] g']| |]] eqn:Hnext;
    try (vm_compute in Hnext; discriminate Hnext).
  exists yielded, g', σ'. split; [reflexivity|].
  destruct (Hepoch 2%nat (@mkGenerator logged_feeds 3 2 [2; 1; 0] [] 1 2)
              g' yielded σ') as [Hfed Hindex];
    [reflexivity | reflexivity | reflexivity | exact Hnext |].
  split; [exact Hfed|]. split; [|exact Hindex].
  vm_compute in Hnext. injection Hnext as _ _ <-. reflexivity.
Defined.

Lemma training_helper_writes_predictions_witness :
  (exists g σe,
     @training_generator constant_scores 0%nat 2 2 sample_store = (sample_store, Ok g) /\
     @epochs_written constant_scores ["age_0"] 2 0%nat 1%nat sample_model 2
       g sample_store 2 σe /\
     (@training_helper constant_scores ["age_0"] 2 sample_model 0%nat 1%nat 2 2 2
        sample_store).1 = σe) /\
  getitem_col
    ((@training_helper constant_scores ["age_0"] 2 sample_model 0%nat 1%nat 2 2 2
        sample_store).1 0%nat) "predictions" = Ok [1%Q; 1%Q; 1%Q] /\
  getitem_col
    ((@training_helper constant_scores ["age_0"] 2 sample_model 0%nat 1%nat 2 2 2
        sample_store).1 1%nat) "predictions" = Ok [1%Q; 1%Q].
Proof.
  split; [|split; vm_compute; reflexivity].
  destruct (@training_helper_writes_predictions constant_scores ["age_0"] 2
              0%nat 1%nat sample_model 2 2 2 sample_store)
    as (_ & _ & g & e & σe & Hg & _ & Hep & _ & Hok).
  exists g, σe. split; [exact Hg|].
  destruct (@training_helper constant_scores ["age_0"] 2 sample_model 0%nat 1%nat
              2 2 2 sample_store) as [σ' [vectors| |]] eqn:Hrun;
    try (vm_compute in Hrun; discriminate Hrun).
  destruct (Hok vectors eq_refl) as [-> Heq]. split; [exact Hep | exact Heq].
Defined.

Lemma full_batch_when_size_exceeds_rows_witness :
  (@training_generator logged_feeds 0%nat 100 2
     ≫= iterate 2 (@training_iteration logged_feeds ["age_0"] 3 sample_model 0%nat))
    sample_store
  = (sample_store,
     session ← @feed_all logged_feeds ["age_0"] sample_model [2; 1; 0] sample_train
                 [[0; 1; 2]; [0; 1; 2]] [];
     Ok (@mkGenerator logged_feeds 3 3 [2; 1; 0] session 0 2)) /\
  (@training_generator logged_feeds 0%nat 100 2
     ≫= iterate 2 (@training_iteration logged_feeds ["age_0"] 3 sample_model 0%nat))
    sample_store
  = (sample_store,
     Ok (@mkGenerator logged_feeds 3 3 [2; 1; 0]
           [mkFeed (mkDataFrame 3 [("age_0", [1%Q; 0%Q; 1%Q])]) [1%Q; 0%Q; 1%Q]
              [(-1)%Q; (-2)%Q; 1%Q];
            mkFeed (mkDataFrame 3 [("age_0", [1%Q; 0%Q; 1%Q])]) [1%Q; 0%Q; 1%Q]
              [(-1)%Q; (-2)%Q; 1%Q]]
           0 2)).
Proof.
  split; [|vm_compute; reflexivity].
  apply (@full_batch_when_size_exceeds_rows logged_feeds ["age_0"] 3 0%nat
           sample_model 100 2 2 sample_store); simpl; lia.
Defined.

Lemma empty_minibatch_on_degenerate_sizes_witness :
  (@training_generator logged_feeds 0%nat 0 2
     ≫= iterate 2 (@training_iteration logged_feeds ["age_0"] 0 sample_model 0%nat))
    sample_store
  = (sample_store,
     session ← @feed_all logged_feeds ["age_0"] sample_model [2; 1; 0] sample_train
                 [[]; []] [];
     Ok (@mkGenerator logged_feeds 3 0 [2; 1; 0] session 0 2)) /\
  (@training_generator logged_feeds 0%nat 0 2
     ≫= iterate 2 (@training_iteration logged_feeds ["age_0"] 0 sample_model 0%nat))
    sample_store
  = (sample_store,
     Ok (@mkGenerator logged_feeds 3 0 [2; 1; 0]
           [mkFeed (mkDataFrame 0 [("age_0", [])]) [] [];
            mkFeed (mkDataFrame 0 [("age_0", [])]) [] []]
           0 2)).
Proof.
  split; [|vm_compute; reflexivity].
  apply (@empty_minibatch_on_degenerate_sizes logged_feeds ["age_0"] 0 0%nat
           sample_model 0 2 2 sample_store). right. lia.
Defined.

Lemma every_window_covers_all_rows_witness :
  (exists batches,
     (@training_generator logged_feeds 0%nat 2 2
        ≫= iterate 3 (@training_iteration logged_feeds ["age_0"] 2 sample_model 0%nat))
       sample_store
     = (sample_store,
        session ← @feed_all logged_feeds ["age_0"] sample_model [2; 1; 0]
                    sample_train batches [];
        Ok (@mkGenerator logged_feeds 3 2 [2; 1; 0] session 0 2)) /\
     length batches = 3%nat /\
     length (concat batches) = 6%nat /\
     forall j, (j + 3 <= 6)%nat -> take 3 (drop j (concat batches)) ≡ₚ [0; 1; 2]) /\
  (@training_generator logged_feeds 0%nat 2 2
     ≫= iterate 3 (@training_iteration logged_feeds ["age_0"] 2 sample_model 0%nat))
    sample_store
  = (sample_store,
     Ok (@mkGenerator logged_feeds 3 2 [2; 1; 0]
           [mkFeed (mkDataFrame 2 [("age_0", [1%Q; 0%Q])]) [1%Q; 0%Q] [(-1)%Q; (-2)%Q];
            mkFeed (mkDataFrame 2 [("age_0", [1%Q; 1%Q])]) [1%Q; 1%Q] [1%Q; (-1)%Q];
            mkFeed (mkDataFrame 2 [("age_0", [0%Q; 1%Q])]) [0%Q; 1%Q] [(-2)%Q; 1%Q]]
           0 2)).
Proof.
  split; [|vm_compute; reflexivity].
  apply (@every_window_covers_all_rows logged_feeds ["age_0"] 2 0%nat
           sample_model 2 2 3 sample_store); simpl; lia.
Defined.

End GeneratorFacts.
